(** * fakefs: the overlay metadata engine of fs/fake.c

    A shallow embedding of the verbs of [fs/fake.c] and proofs about them.

    The metadata store (the sqlite database behind [mount->db]) is modelled
    by its two relations, the host side (the passthrough table [realfs] and
    the few system calls [fake.c] issues itself) is an interface, and the
    verbs are written in a state monad whose second outcome is the process
    abort of [die]. *)

From Stdlib Require Import ZArith Lia Ascii String.
From stdpp Require Import base option gmap strings list.

Local Open Scope Z_scope.

(** ** Integer types and constants *)

(** [dword_t]: conversion to an unsigned 32-bit integer. *)
Definition dword (z : Z) : Z := z mod 2 ^ 32.

(** [int]: conversion to a signed 32-bit integer. *)
Definition int (z : Z) : Z := (z + 2 ^ 31) mod 2 ^ 32 - 2 ^ 31.

Definition INT_MAX : Z := 2 ^ 31 - 1.

(** Largest rowid of the store ([sqlite3_int64]). *)
Definition INT64_MAX : Z := 2 ^ 63 - 1.

(** File-type bits of a mode ([sys/stat.h], octal in the source). *)
Definition S_IFMT : Z := 0xF000.
Definition S_IFCHR : Z := 0x2000.
Definition S_IFDIR : Z := 0x4000.
Definition S_IFBLK : Z := 0x6000.
Definition S_IFREG : Z := 0x8000.
Definition S_IFLNK : Z := 0xA000.

Definition S_ISBLK (m : Z) : bool := Z.land m S_IFMT =? S_IFBLK.
Definition S_ISCHR (m : Z) : bool := Z.land m S_IFMT =? S_IFCHR.
Definition S_ISLNK (m : Z) : bool := Z.land m S_IFMT =? S_IFLNK.

(** Permission bits, octal [0666] and [0777] in the source. *)
Definition perm_0666 : Z := 0x1B6.
Definition perm_0777 : Z := 0x1FF.

(** Modelled from the spec: [kernel/errno.h] and [fs/fd.h] are not part of
    the sources.  The spec only names the errors (not found, invalid
    argument) as negative foreign-OS error codes and the creation flag of
    [open]; the Linux numbering, which the emulated system uses, is taken. *)
Definition _ENOENT : Z := -2.
Definition _EINVAL : Z := -22.
Definition O_CREAT_ : Z := 0x40.

(** Host-side constants of [fcntl.h] and [errno.h], passed through to the
    host untouched. *)
Definition O_RDONLY : Z := 0.
Definition O_WRONLY : Z := 1.
Definition O_CREAT : Z := 0x40.
Definition O_EXCL : Z := 0x80.
Definition EEXIST : Z := 17.

(** ** Data model *)

(** [struct ish_stat]: the blob stored in the [stats] relation. *)
Module ishstat.
Record t := mk { mode : Z; uid : Z; gid : Z; rdev : Z }.
End ishstat.
Abbreviation ish_stat := ishstat.t.

(** Modelled from the spec: [struct statbuf] is declared in [fs/stat.h],
    which is not part of the sources.  It has the five fields the overlay
    replaces and, from the host, size, times, block counts and nlink. *)
Module statbuf.
Record t := mk {
  dev : Z; inode : Z; mode : Z; nlink : Z; uid : Z; gid : Z; rdev : Z;
  size : Z; blksize : Z; blocks : Z; atime : Z; mtime : Z; ctime : Z }.
End statbuf.

(** Modelled from the spec: [struct attr] is declared in [fs/fd.h], which
    is not part of the sources; [setattr] takes a size, a uid, a gid or a
    mode.  A tagged union. *)
Inductive attr : Type :=
  | attr_uid (uid : Z)
  | attr_gid (gid : Z)
  | attr_mode (mode : Z)
  | attr_size (size : Z).

(** Modelled from the spec: [struct fd] is declared in [fs/fd.h]; a
    descriptor carries the fake inode resolved at open time, next to the
    host-side descriptor that [realfs] filled in. *)
Record fd := mk_fd { real_fd : Z; fake_inode : Z }.

(** Modelled from the spec: [struct task] is declared in [kernel/task.h];
    the overlay reads the effective uid and gid of the caller, [current]. *)
Record task := mk_task { euid : Z; egid : Z }.

(** Modelled from the spec: the schema is created outside [fs/fake.c]:
    [paths(path BLOB PRIMARY KEY, inode INTEGER NOT NULL)] and
    [stats(inode INTEGER PRIMARY KEY AUTOINCREMENT, stat BLOB NOT NULL)].
    A [const char *] path is a [string] (the bytes before the terminating
    NUL, which is what [bind_path] binds); an inode number is a [Z]: rowids
    of the store are [sqlite3_int64], [ino_t] is the unsigned type of the
    same width, and the conversions between them keep the value of every
    rowid the store hands out.  [seq] is the counter of the AUTOINCREMENT
    key of [stats]. *)
Record tables := mk_tables {
  paths : gmap string Z;
  stats : gmap Z ish_stat;
  seq : Z }.

(** The connection: the current tables, the snapshot taken by [begin]
    while a transaction is open, and the key of the Stat row inserted last,
    which is what [last_insert_rowid()] holds when the second statement of
    [path_create], its only reader, runs.  (An insert into paths moves
    [last_insert_rowid()] on to the rowid of the new row of paths; the rows
    of paths are not numbered here, and that value is not kept.) *)
Record database := mk_database {
  tab : tables;
  saved : option tables;
  last_insert_rowid : Z }.

(** The overlay's view of a path: its Path record joined with the Stat
    record it references. *)
Definition overlay (t : tables) (path : string) : option (Z * ish_stat) :=
  i ← paths t !! path; st ← stats t !! i; Some (i, st).
Arguments overlay : simpl never.

(** ** The host interface *)

(** A system call either returns a value or fails and sets [errno]. *)
Inductive sysres (A : Type) : Type :=
  | SysOk (a : A)
  | SysErr (e : Z).
Arguments SysOk {A} a.
Arguments SysErr {A} e.

(** The passthrough table [realfs] ([fs/real.c]) and the system calls
    [fake.c] issues itself, over a host state [H].  The functions of
    [realfs] return [0] or a negative error code; [realfs_open] returns an
    error ([IS_ERR]) or a descriptor.  A stat buffer goes in and comes
    back; [readlink] and [read] give the bytes they put into the caller's
    buffer. *)
Class host_ops (H : Type) := {
  fix_path : string → string;
  errno_table : Z → Z;
  realfs_open : string → Z → Z → H → (Z + fd) * H;
  fd_close : fd → H → Z * H;
  realfs_link : string → string → H → Z * H;
  realfs_unlink : string → H → Z * H;
  realfs_rmdir : string → H → Z * H;
  realfs_rename : string → string → H → Z * H;
  realfs_mknod : string → Z → Z → H → Z * H;
  realfs_mkdir : string → Z → H → Z * H;
  realfs_stat : string → statbuf.t → bool → H → (Z * statbuf.t) * H;
  realfs_fstat : fd → statbuf.t → H → (Z * statbuf.t) * H;
  realfs_setattr : string → attr → H → Z * H;
  realfs_fsetattr : fd → attr → H → Z * H;
  realfs_readlink : string → Z → H → (Z * string) * H;
  sys_openat : string → Z → Z → H → sysres Z * H;
  sys_write : Z → string → H → sysres Z * H;
  sys_read : Z → Z → H → sysres string * H;
  sys_close : Z → H → sysres unit * H;
  sys_unlinkat : string → H → sysres unit * H }.

(** ** The monad of the verbs *)

(** What a verb runs in: the host, [errno], the store of the mount and the
    calling task. *)
Record world (H : Type) := mk_world {
  host : H;
  errno : Z;
  db : database;
  current : task }.
Arguments mk_world {H}.
Arguments host {H}.
Arguments errno {H}.
Arguments db {H}.
Arguments current {H}.

(** A call returns, or the process is aborted by [die]. *)
Inductive outcome (A : Type) : Type :=
  | Ok (a : A)
  | Died (msg : string).
Arguments Ok {A} a.
Arguments Died {A} msg.

Definition M (H A : Type) : Type := world H → outcome (A * world H).

Global Instance M_ret {H} : MRet (M H) := λ A a w, Ok (a, w).
Global Instance M_bind {H} : MBind (M H) := λ A B f m w,
  match m w with
  | Ok (a, w') => f a w'
  | Died msg => Died msg
  end.

Definition die {H A} (msg : string) : M H A := λ _, Died msg.

Section fakefs.
Context {H : Type} `{!host_ops H}.

Definition with_host (w : world H) (h : H) : world H :=
  mk_world h (errno w) (db w) (current w).
Definition with_errno (w : world H) (e : Z) : world H :=
  mk_world (host w) e (db w) (current w).
Definition with_db (w : world H) (d : database) : world H :=
  mk_world (host w) (errno w) d (current w).
Definition with_tab (w : world H) (t : tables) : world H :=
  with_db w (mk_database t (saved (db w)) (last_insert_rowid (db w))).

Definition get_tab : M H tables := λ w, Ok (tab (db w), w).
Definition put_tab (t : tables) : M H unit := λ w, Ok (tt, with_tab w t).
Definition get_current : M H task := λ w, Ok (current w, w).

(** A call into [realfs]: the result comes back in the return value. *)
Definition realfs {A} (op : H → A * H) : M H A := λ w,
  let '(a, h) := op (host w) in Ok (a, with_host w h).

(** A system call with the C convention: on failure [fail] is returned
    and [errno] is set. *)
Definition syscall {A} (fail : A) (op : H → sysres A * H) : M H A := λ w,
  match op (host w) with
  | (SysOk a, h) => Ok (a, with_host w h)
  | (SysErr e, h) => Ok (fail, with_errno (with_host w h) e)
  end.

Definition openat (path : string) (flags mode : Z) : M H Z :=
  syscall (-1) (sys_openat path flags mode).
Definition write (fd : Z) (buf : string) : M H Z :=
  syscall (-1) (sys_write fd buf).
Definition close (fd : Z) : M H unit := syscall tt (sys_close fd).
Definition unlinkat (path : string) : M H unit := syscall tt (sys_unlinkat path).

(** [read(fd, buf, bufsize)]: the count and the bytes put into [buf]. *)
Definition read (fd bufsize : Z) : M H (Z * string) :=
  syscall (-1, "") (λ h,
    match sys_read fd bufsize h with
    | (SysOk data, h') => (SysOk (Z.of_nat (String.length data), data), h')
    | (SysErr e, h') => (SysErr e, h')
    end).

(** [errno_map()] translates the current [errno]. *)
Definition errno_map : M H Z := λ w, Ok (errno_table (errno w), w).
Definition get_errno : M H Z := λ w, Ok (errno w, w).
Definition set_errno (e : Z) : M H unit := λ w, Ok (tt, with_errno w e).

(** *** Transactions

    [begin] takes the mount lock and opens a transaction; [commit] and
    [rollback] end it and release the lock.  The verbs are modelled one
    call at a time, so the lock does not appear; a statement the store
    refuses makes [db_check_error] abort the process. *)
Definition db_begin : M H unit := λ w,
  match saved (db w) with
  | Some _ => Died "sqlite error: cannot start a transaction within a transaction"
  | None => Ok (tt, with_db w
      (mk_database (tab (db w)) (Some (tab (db w))) (last_insert_rowid (db w))))
  end.

Definition db_commit : M H unit := λ w,
  match saved (db w) with
  | None => Died "sqlite error: cannot commit - no transaction is active"
  | Some _ => Ok (tt, with_db w
      (mk_database (tab (db w)) None (last_insert_rowid (db w))))
  end.

Definition db_rollback : M H unit := λ w,
  match saved (db w) with
  | None => Died "sqlite error: cannot rollback - no transaction is active"
  | Some t => Ok (tt, with_db w (mk_database t None (last_insert_rowid (db w))))
  end.

(** *** Statements *)

(** [select inode from paths where path = ?]; zero when there is no row. *)
Definition path_get_inode (path : string) : M H Z :=
  t ← get_tab; mret (default 0 (paths t !! path)).

(** [select inode, stat from stats natural join paths where path = ?]. *)
Definition path_read_stat (path : string) : M H (option (Z * ish_stat)) :=
  t ← get_tab; mret (overlay t path).

(** The largest key of a relation, zero when it is empty. *)
Definition max_rowid {A} (m : gmap Z A) : Z :=
  map_fold (λ k _ acc, Z.max k acc) 0 m.

(** [insert into stats (stat) values (?)]: the AUTOINCREMENT key is one
    more than the largest rowid ever used, and the insertion fails once
    that is the largest rowid there is. *)
Definition path_create_stat (stat : ish_stat) : M H unit := λ w,
  let t := tab (db w) in
  let rowid := Z.max (seq t) (max_rowid (stats t)) + 1 in
  if INT64_MAX <? rowid then Died "sqlite error: database or disk is full"
  else Ok (tt, with_db w
    (mk_database (mk_tables (paths t) (<[rowid := stat]> (stats t)) rowid)
       (saved (db w)) rowid)).

(** [insert into paths values (?, last_insert_rowid())]: [path] is the
    primary key. *)
Definition path_create_path (path : string) : M H unit := λ w,
  let t := tab (db w) in
  match paths t !! path with
  | Some _ => Died "sqlite error: UNIQUE constraint failed: paths.path"
  | None => Ok (tt, with_tab w
      (mk_tables (<[path := last_insert_rowid (db w)]> (paths t)) (stats t) (seq t)))
  end.

Definition path_create (path : string) (stat : ish_stat) : M H unit :=
  path_create_stat stat;; path_create_path path.

(** [select stat from stats where inode = ?]. *)
Definition inode_read_stat (inode : Z) : M H ish_stat :=
  t ← get_tab;
  match stats t !! inode with
  | Some st => mret st
  | None => die "inode_read_stat: missing inode"
  end.

(** [update stats set stat = ? where inode = ?]: no row, no change. *)
Definition inode_write_stat (inode : Z) (stat : ish_stat) : M H unit :=
  t ← get_tab;
  match stats t !! inode with
  | Some _ => put_tab (mk_tables (paths t) (<[inode := stat]> (stats t)) (seq t))
  | None => mret tt
  end.

(** [insert into paths (path, inode) values (?, ?)]. *)
Definition path_link (src dst : string) : M H unit :=
  inode ← path_get_inode src;
  if inode =? 0 then die "fakefs link: nonexistent src path"
  else
    t ← get_tab;
    match paths t !! dst with
    | Some _ => die "sqlite error: UNIQUE constraint failed: paths.path"
    | None => put_tab (mk_tables (<[dst := inode]> (paths t)) (stats t) (seq t))
    end.

(** [delete from paths where path = ?]. *)
Definition path_unlink (path : string) : M H unit :=
  t ← get_tab;
  put_tab (mk_tables (delete path (paths t)) (stats t) (seq t)).

(** [update or replace paths set path = ? where path = ?]: the row of
    [src], when there is one, takes the place of any row of [dst]. *)
Definition path_rename (src dst : string) : M H unit :=
  t ← get_tab;
  match paths t !! src with
  | Some inode =>
      put_tab (mk_tables (<[dst := inode]> (delete src (paths t))) (stats t) (seq t))
  | None => mret tt
  end.

(** ** The verbs *)

Definition fakefs_open (path : string) (flags mode : Z) : M H (Z + fd) :=
  r ← realfs (realfs_open path flags perm_0666);
  match r with
  | inl err => mret (inl err)
  | inr fd0 =>
      db_begin;;
      inode ← path_get_inode path;
      cur ← get_current;
      inode ← (if negb (Z.land flags O_CREAT_ =? 0) then
                 let ishstat := ishstat.mk (dword (Z.lor mode S_IFREG))
                                  (euid cur) (egid cur) 0 in
                 if inode =? 0 then
                   path_create path ishstat;; path_get_inode path
                 else mret inode
               else mret inode);
      db_commit;;
      let fd1 := mk_fd (real_fd fd0) inode in
      if fake_inode fd1 =? 0 then
        (* metadata for this file is missing *)
        realfs (fd_close fd1);; mret (inl _ENOENT)
      else mret (inr fd1)
  end.

Definition fakefs_link (src dst : string) : M H Z :=
  db_begin;;
  err ← realfs (realfs_link src dst);
  if err <? 0 then db_rollback;; mret err
  else path_link src dst;; db_commit;; mret 0.

Definition fakefs_unlink (path : string) : M H Z :=
  db_begin;;
  err ← realfs (realfs_unlink path);
  if err <? 0 then db_rollback;; mret err
  else path_unlink path;; db_commit;; mret 0.

Definition fakefs_rmdir (path : string) : M H Z :=
  db_begin;;
  err ← realfs (realfs_rmdir path);
  if err <? 0 then db_rollback;; mret err
  else path_unlink path;; db_commit;; mret 0.

Definition fakefs_rename (src dst : string) : M H Z :=
  db_begin;;
  err ← realfs (realfs_rename src dst);
  if err <? 0 then db_rollback;; mret err
  else path_rename src dst;; db_commit;; mret 0.

Definition fakefs_symlink (target link : string) : M H Z :=
  db_begin;;
  (* create a file containing the target *)
  fd ← openat (fix_path link) (Z.lor (Z.lor O_WRONLY O_CREAT) O_EXCL) perm_0666;
  if fd <? 0 then db_rollback;; errno_map
  else
    res ← write fd target;
    close fd;;
    if res <? 0 then
      saved_errno ← get_errno;
      unlinkat (fix_path link);;
      db_rollback;;
      set_errno saved_errno;;
      errno_map
    else
      (* customize the stat info so it looks like a link *)
      cur ← get_current;
      let ishstat := ishstat.mk (Z.lor S_IFLNK perm_0777) (euid cur) (egid cur) 0 in
      path_create link ishstat;;
      db_commit;;
      mret 0.

Definition fakefs_mknod (path : string) (mode dev : Z) : M H Z :=
  let real_mode :=
    if S_ISBLK mode || S_ISCHR mode then Z.lor perm_0666 S_IFREG
    else Z.lor perm_0666 (Z.land mode S_IFMT) in
  db_begin;;
  err ← realfs (realfs_mknod path real_mode 0);
  if err <? 0 then db_rollback;; mret err
  else
    cur ← get_current;
    let stat := ishstat.mk mode (euid cur) (egid cur)
                  (if S_ISBLK mode || S_ISCHR mode then dev else 0) in
    path_create path stat;;
    db_commit;;
    mret err.

(** The five assignments that end [fakefs_stat] and [fakefs_fstat]. *)
Definition project (inode : Z) (ishstat : ish_stat) (b : statbuf.t) : statbuf.t :=
  statbuf.mk (statbuf.dev b) inode (ishstat.mode ishstat) (statbuf.nlink b)
    (ishstat.uid ishstat) (ishstat.gid ishstat) (ishstat.rdev ishstat)
    (statbuf.size b) (statbuf.blksize b) (statbuf.blocks b)
    (statbuf.atime b) (statbuf.mtime b) (statbuf.ctime b).

Definition fakefs_stat (path : string) (fake_stat : statbuf.t) (follow_links : bool)
  : M H (Z * statbuf.t) :=
  db_begin;;
  r ← path_read_stat path;
  match r with
  | None => db_rollback;; mret (_ENOENT, fake_stat)
  | Some (inode, ishstat) =>
      '(err, fake_stat) ← realfs (realfs_stat path fake_stat follow_links);
      db_commit;;
      if err <? 0 then mret (err, fake_stat)
      else mret (0, project inode ishstat fake_stat)
  end.

Definition fakefs_fstat (fd : fd) (fake_stat : statbuf.t) : M H (Z * statbuf.t) :=
  '(err, fake_stat) ← realfs (realfs_fstat fd fake_stat);
  if err <? 0 then mret (err, fake_stat)
  else
    db_begin;;
    ishstat ← inode_read_stat (fake_inode fd);
    db_commit;;
    mret (0, project (fake_inode fd) ishstat fake_stat).

Definition fake_stat_setattr (ishstat : ish_stat) (attr : attr) : ish_stat :=
  match attr with
  | attr_uid uid =>
      ishstat.mk (ishstat.mode ishstat) uid (ishstat.gid ishstat) (ishstat.rdev ishstat)
  | attr_gid gid =>
      ishstat.mk (ishstat.mode ishstat) (ishstat.uid ishstat) gid (ishstat.rdev ishstat)
  | attr_mode mode =>
      ishstat.mk
        (Z.lor (Z.land (ishstat.mode ishstat) S_IFMT) (Z.land mode (Z.lnot S_IFMT)))
        (ishstat.uid ishstat) (ishstat.gid ishstat) (ishstat.rdev ishstat)
  | attr_size _ => ishstat
  end.

Definition fakefs_setattr (path : string) (attr : attr) : M H Z :=
  match attr with
  | attr_size _ => realfs (realfs_setattr path attr)
  | _ =>
      db_begin;;
      r ← path_read_stat path;
      match r with
      | None => db_rollback;; mret _ENOENT
      | Some (inode, ishstat) =>
          inode_write_stat inode (fake_stat_setattr ishstat attr);;
          db_commit;;
          mret 0
      end
  end.

Definition fakefs_fsetattr (fd : fd) (attr : attr) : M H Z :=
  match attr with
  | attr_size _ => realfs (realfs_fsetattr fd attr)
  | _ =>
      db_begin;;
      ishstat ← inode_read_stat (fake_inode fd);
      inode_write_stat (fake_inode fd) (fake_stat_setattr ishstat attr);;
      db_commit;;
      mret 0
  end.

Definition fakefs_mkdir (path : string) (mode : Z) : M H Z :=
  db_begin;;
  err ← realfs (realfs_mkdir path perm_0777);
  if err <? 0 then db_rollback;; mret err
  else
    cur ← get_current;
    let ishstat := ishstat.mk (Z.lor mode S_IFDIR) (euid cur) (egid cur) 0 in
    path_create path ishstat;;
    db_commit;;
    mret 0.

(** The count is kept in an [int] before it is returned. *)
Definition file_readlink (path : string) (bufsize : Z) : M H (Z * string) :=
  fd ← openat (fix_path path) O_RDONLY 0;
  if fd <? 0 then e ← errno_map; mret (e, "")
  else
    '(n, buf) ← read fd bufsize;
    let err := int n in
    close fd;;
    if err <? 0 then e ← errno_map; mret (e, buf)
    else mret (err, buf).

Definition fakefs_readlink (path : string) (bufsize : Z) : M H (Z * string) :=
  db_begin;;
  r ← path_read_stat path;
  match r with
  | None => db_rollback;; mret (_ENOENT, "")
  | Some (_, ishstat) =>
      if negb (S_ISLNK (ishstat.mode ishstat)) then
        db_rollback;; mret (_EINVAL, "")
      else
        '(err, buf) ← realfs (realfs_readlink path bufsize);
        '(err, buf) ← (if err =? _EINVAL then file_readlink path bufsize
                       else mret (err, buf));
        db_commit;;
        mret (err, buf)
  end.

End fakefs.

(** ** Vocabulary of the properties *)

(** No transaction is open: the state in which a verb is entered, since
    [begin] holds the mount lock until [commit] or [rollback]. *)
Definition idle {H} (w : world H) : Prop := saved (db w) = None.

(** The mutating verbs that wrap a host operation in a transaction. *)
Inductive verb : Type :=
  | v_link (src dst : string)
  | v_unlink (path : string)
  | v_rmdir (path : string)
  | v_rename (src dst : string)
  | v_symlink (target link : string)
  | v_mknod (path : string) (mode dev : Z)
  | v_mkdir (path : string) (mode : Z).

Definition run_verb `{host_ops H} (v : verb) : M H Z :=
  match v with
  | v_link src dst => fakefs_link src dst
  | v_unlink path => fakefs_unlink path
  | v_rmdir path => fakefs_rmdir path
  | v_rename src dst => fakefs_rename src dst
  | v_symlink target link => fakefs_symlink target link
  | v_mknod path mode dev => fakefs_mknod path mode dev
  | v_mkdir path mode => fakefs_mkdir path mode
  end.

(** The mode the spec gives to the host for [mknod]: a regular file for a
    character or block special, the requested type otherwise. *)
Definition mknod_host_mode (mode : Z) : Z :=
  if S_ISBLK mode || S_ISCHR mode then Z.lor S_IFREG perm_0666
  else Z.lor (Z.land mode S_IFMT) perm_0666.

Definition negative (err : Z) : option Z :=
  if err <? 0 then Some err else None.

(** The error with which the host side of a verb fails in host state [h],
    if it does.  For [symlink] the host side is the exclusive creation of
    the file and the write of the target; the error is the translation of
    [errno] as the host calls leave it ([close] comes after [write] and
    before [errno] is read). *)
Definition host_failure `{host_ops H} (v : verb) (h : H) : option Z :=
  match v with
  | v_link src dst => negative (realfs_link src dst h).1
  | v_unlink path => negative (realfs_unlink path h).1
  | v_rmdir path => negative (realfs_rmdir path h).1
  | v_rename src dst => negative (realfs_rename src dst h).1
  | v_mknod path mode dev => negative (realfs_mknod path (mknod_host_mode mode) 0 h).1
  | v_mkdir path mode => negative (realfs_mkdir path perm_0777 h).1
  | v_symlink target link =>
      match sys_openat (fix_path link)
              (Z.lor (Z.lor O_WRONLY O_CREAT) O_EXCL) perm_0666 h with
      | (SysErr e, _) => Some (errno_table e)
      | (SysOk fd, h1) =>
          if fd <? 0 then None else
          match sys_write fd target h1 with
          | (SysOk _, _) => None
          | (SysErr e, h2) =>
              match sys_close fd h2 with
              | (SysOk _, _) => Some (errno_table e)
              | (SysErr e', _) => Some (errno_table e')
              end
          end
      end
  end.

(** What is at a host path, as far as the overlay depends on it: a
    regular file with its bytes, or something else. *)
Inductive host_entry : Type :=
  | host_regular (data : string)
  | host_other.

(** The contract of the host that the symlink emulation relies on
    (open(2), write(2), read(2), readlink(2)): an exclusive creation fails
    with [EEXIST] on an existing entry; a file that was created, written
    once and closed is a regular file holding as many bytes of the buffer as the write
    counted, which can be fewer than it was given; [readlink] of a
    regular file is an invalid argument; a regular file can be opened and
    a read that asks for at least its size gives its bytes.  Every
    translated error is negative. *)
Class host_laws (H : Type) `{host_ops H} := {
  host_lookup : H → string → option host_entry;
  errno_table_negative : ∀ e, errno_table e < 0;
  openat_excl_exists : ∀ h path mode,
    is_Some (host_lookup h path) →
    ∃ h', sys_openat path (Z.lor (Z.lor O_WRONLY O_CREAT) O_EXCL) mode h
          = (SysErr EEXIST, h');
  create_write_close : ∀ h path mode fd h1 data n h2 r h3,
    sys_openat path (Z.lor (Z.lor O_WRONLY O_CREAT) O_EXCL) mode h = (SysOk fd, h1) →
    sys_write fd data h1 = (SysOk n, h2) →
    sys_close fd h2 = (r, h3) →
    host_lookup h3 path = Some (host_regular (substring 0 (Z.to_nat n) data));
  readlink_regular : ∀ h path bufsize data,
    host_lookup h (fix_path path) = Some (host_regular data) →
    ∃ buf h', realfs_readlink path bufsize h = ((_EINVAL, buf), h') ∧
              host_lookup h' (fix_path path) = Some (host_regular data);
  open_read_regular : ∀ h path bufsize data,
    host_lookup h path = Some (host_regular data) →
    Z.of_nat (String.length data) ≤ bufsize →
    ∃ fd h1 h2, sys_openat path O_RDONLY 0 h = (SysOk fd, h1) ∧ 0 ≤ fd ∧
                sys_read fd bufsize h1 = (SysOk data, h2) }.

(** One more guarantee of open(2), through [realfs]: an open that gives a
    descriptor leaves an entry at the path. *)
Definition open_leaves_entry (H : Type) `{host_laws H} : Prop :=
  ∀ (h : H) path flags mode f h',
    realfs_open path flags mode h = (inr f, h') →
    is_Some (host_lookup h' (fix_path path)).

(** Two paths whose Path records reference the same Stat record. *)
Definition same_stat_record (t : tables) (p q : string) : Prop :=
  ∃ i, paths t !! p = Some i ∧ paths t !! q = Some i.

(** The Stat row [i] rewritten, everything else as it was. *)
Definition stat_updated (t : tables) (i : Z) (st : ish_stat) : tables :=
  mk_tables (paths t) (<[i := st]> (stats t)) (seq t).

(** The attribute that goes to the host. *)
Definition is_size (a : attr) : bool :=
  match a with attr_size _ => true | _ => false end.

(** ** A reference host

    A small host that answers the interface: a flat name space of regular
    files, directories, symbolic links and other nodes, a table of open
    descriptors with their offsets, and a switch that makes the volume read
    only.  It shows that the contract above can be met and runs the verbs on
    concrete inputs. *)
Module RefHost.

Inductive node : Type :=
  | Reg (data : string)
  | Dir
  | Lnk (target : string)
  | Node (mode : Z).

Record t := mk {
  entries : gmap string node;
  fds : gmap Z (string * nat);
  next_fd : N;
  read_only : bool }.

Definition ENOENT : Z := 2.
Definition EBADF : Z := 9.
Definition ENOTDIR : Z := 20.
Definition EISDIR : Z := 21.
Definition EROFS : Z := 30.

(** The path below the root of the data tree. *)
Definition fix_path (path : string) : string :=
  match path with
  | String "/"%char "" => "."
  | String "/"%char rest => rest
  | "" => "."
  | _ => path
  end.

Definition with_entries (h : t) (e : gmap string node) : t :=
  mk e (fds h) (next_fd h) (read_only h).

Definition openat (path : string) (flags mode : Z) (h : t) : sysres Z * t :=
  let fd := Z.of_N (next_fd h) in
  let opened := (SysOk fd,
                 mk (entries h) (<[fd := (path, 0%nat)]> (fds h))
                    (N.succ (next_fd h)) (read_only h)) in
  match entries h !! path with
  | Some _ =>
      if negb (Z.land flags O_CREAT =? 0) && negb (Z.land flags O_EXCL =? 0)
      then (SysErr EEXIST, h)
      else opened
  | None =>
      if Z.land flags O_CREAT =? 0 then (SysErr ENOENT, h)
      else if read_only h then (SysErr EROFS, h)
      else (SysOk fd,
            mk (<[path := Reg ""]> (entries h))
               (<[fd := (path, 0%nat)]> (fds h))
               (N.succ (next_fd h)) (read_only h))
  end.

Definition write (fd : Z) (buf : string) (h : t) : sysres Z * t :=
  match fds h !! fd with
  | Some (path, off) =>
      match entries h !! path with
      | Some (Reg old) =>
          if read_only h then (SysErr EROFS, h)
          else
            let len := String.length buf in
            let data := (substring 0 off old +:+ buf
                         +:+ substring (off + len) (String.length old) old)%nat in
            (SysOk (Z.of_nat len),
             mk (<[path := Reg data]> (entries h))
                (<[fd := (path, (off + len)%nat)]> (fds h))
                (next_fd h) (read_only h))
      | _ => (SysErr EBADF, h)
      end
  | None => (SysErr EBADF, h)
  end.

Definition read (fd bufsize : Z) (h : t) : sysres string * t :=
  match fds h !! fd with
  | Some (path, off) =>
      match entries h !! path with
      | Some (Reg data) =>
          let got := substring off (Z.to_nat bufsize) data in
          (SysOk got,
           mk (entries h) (<[fd := (path, (off + String.length got)%nat)]> (fds h))
              (next_fd h) (read_only h))
      | Some Dir => (SysErr EISDIR, h)
      | _ => (SysErr EBADF, h)
      end
  | None => (SysErr EBADF, h)
  end.

Definition close (fd : Z) (h : t) : sysres unit * t :=
  match fds h !! fd with
  | Some _ => (SysOk tt, mk (entries h) (delete fd (fds h)) (next_fd h) (read_only h))
  | None => (SysErr EBADF, h)
  end.

Definition unlinkat (path : string) (h : t) : sysres unit * t :=
  match entries h !! path with
  | Some _ =>
      if read_only h then (SysErr EROFS, h)
      else (SysOk tt, with_entries h (delete path (entries h)))
  | None => (SysErr ENOENT, h)
  end.

(** [realfs]: the same calls on the fixed path, errors negated. *)
Definition realfs_open (path : string) (flags mode : Z) (h : t) : (Z + fd) * t :=
  match openat (fix_path path) flags mode h with
  | (SysOk n, h') => (inr (mk_fd n 0), h')
  | (SysErr e, h') => (inl (- e), h')
  end.

Definition fd_close (f : fd) (h : t) : Z * t :=
  match close (real_fd f) h with
  | (SysOk _, h') => (0, h')
  | (SysErr e, h') => (- e, h')
  end.

Definition create (path : string) (n : node) (h : t) : Z * t :=
  match entries h !! fix_path path with
  | Some _ => (- EEXIST, h)
  | None =>
      if read_only h then (- EROFS, h)
      else (0, with_entries h (<[fix_path path := n]> (entries h)))
  end.

Definition realfs_link (src dst : string) (h : t) : Z * t :=
  match entries h !! fix_path src with
  | Some n => create dst n h
  | None => (- ENOENT, h)
  end.

Definition realfs_unlink (path : string) (h : t) : Z * t :=
  match entries h !! fix_path path with
  | Some Dir => (- EISDIR, h)
  | Some _ =>
      if read_only h then (- EROFS, h)
      else (0, with_entries h (delete (fix_path path) (entries h)))
  | None => (- ENOENT, h)
  end.

Definition realfs_rmdir (path : string) (h : t) : Z * t :=
  match entries h !! fix_path path with
  | Some Dir =>
      if read_only h then (- EROFS, h)
      else (0, with_entries h (delete (fix_path path) (entries h)))
  | Some _ => (- ENOTDIR, h)
  | None => (- ENOENT, h)
  end.

Definition realfs_rename (src dst : string) (h : t) : Z * t :=
  match entries h !! fix_path src with
  | Some n =>
      if read_only h then (- EROFS, h)
      else (0, with_entries h
                 (<[fix_path dst := n]> (delete (fix_path src) (entries h))))
  | None => (- ENOENT, h)
  end.

Definition realfs_mknod (path : string) (mode dev : Z) (h : t) : Z * t :=
  create path (if Z.land mode S_IFMT =? S_IFREG then Reg "" else Node mode) h.

Definition realfs_mkdir (path : string) (mode : Z) (h : t) : Z * t :=
  create path Dir h.

Definition node_mode (n : node) : Z :=
  match n with
  | Reg _ => Z.lor S_IFREG perm_0666
  | Dir => Z.lor S_IFDIR perm_0777
  | Lnk _ => Z.lor S_IFLNK perm_0777
  | Node mode => mode
  end.

Definition node_size (n : node) : Z :=
  match n with
  | Reg data => Z.of_nat (String.length data)
  | Lnk target => Z.of_nat (String.length target)
  | _ => 0
  end.

Definition host_stat (n : node) (b : statbuf.t) : statbuf.t :=
  statbuf.mk 1 (statbuf.inode b) (node_mode n) 1 501 20 0
    (node_size n) 4096 ((node_size n + 511) / 512) 0 0 0.

Definition realfs_stat (path : string) (b : statbuf.t) (follow : bool) (h : t)
  : (Z * statbuf.t) * t :=
  match entries h !! fix_path path with
  | Some n => ((0, host_stat n b), h)
  | None => ((- ENOENT, b), h)
  end.

Definition realfs_fstat (f : fd) (b : statbuf.t) (h : t) : (Z * statbuf.t) * t :=
  match fds h !! real_fd f with
  | Some (path, _) =>
      match entries h !! path with
      | Some n => ((0, host_stat n b), h)
      | None => ((- ENOENT, b), h)
      end
  | None => ((- EBADF, b), h)
  end.

Definition truncate (path : string) (size : Z) (h : t) : Z * t :=
  match entries h !! path with
  | Some (Reg data) =>
      if read_only h then (- EROFS, h)
      else (0, with_entries h
                 (<[path := Reg (substring 0 (Z.to_nat size) data)]> (entries h)))
  | Some _ => (- EISDIR, h)
  | None => (- ENOENT, h)
  end.

Definition realfs_setattr (path : string) (a : attr) (h : t) : Z * t :=
  match a with
  | attr_size size => truncate (fix_path path) size h
  | _ => (0, h)
  end.

Definition realfs_fsetattr (f : fd) (a : attr) (h : t) : Z * t :=
  match a, fds h !! real_fd f with
  | attr_size size, Some (path, _) => truncate path size h
  | attr_size _, None => (- EBADF, h)
  | _, _ => (0, h)
  end.

Definition realfs_readlink (path : string) (bufsize : Z) (h : t) : (Z * string) * t :=
  match entries h !! fix_path path with
  | Some (Lnk target) =>
      let got := substring 0 (Z.to_nat bufsize) target in
      ((Z.of_nat (String.length got), got), h)
  | Some _ => ((_EINVAL, ""), h)
  | None => ((- ENOENT, ""), h)
  end.

(** Unknown values of [errno] are translated to a catch-all code. *)
Definition errno_table (e : Z) : Z := if 0 <? e then - e else - 1.

Definition lookup (h : t) (path : string) : option host_entry :=
  match entries h !! path with
  | Some (Reg data) => Some (host_regular data)
  | Some _ => Some host_other
  | None => None
  end.

(** An empty data tree. *)
Definition empty : t := mk ∅ ∅ 3%N false.

End RefHost.

Global Instance ref_host_ops : host_ops RefHost.t := {|
  fix_path := RefHost.fix_path;
  errno_table := RefHost.errno_table;
  realfs_open := RefHost.realfs_open;
  fd_close := RefHost.fd_close;
  realfs_link := RefHost.realfs_link;
  realfs_unlink := RefHost.realfs_unlink;
  realfs_rmdir := RefHost.realfs_rmdir;
  realfs_rename := RefHost.realfs_rename;
  realfs_mknod := RefHost.realfs_mknod;
  realfs_mkdir := RefHost.realfs_mkdir;
  realfs_stat := RefHost.realfs_stat;
  realfs_fstat := RefHost.realfs_fstat;
  realfs_setattr := RefHost.realfs_setattr;
  realfs_fsetattr := RefHost.realfs_fsetattr;
  realfs_readlink := RefHost.realfs_readlink;
  sys_openat := RefHost.openat;
  sys_write := RefHost.write;
  sys_read := RefHost.read;
  sys_close := RefHost.close;
  sys_unlinkat := RefHost.unlinkat |}.

(** A freshly made store and a task, on the empty reference host. *)
Definition empty_tables : tables := mk_tables ∅ ∅ 0.
Definition world0 : world RefHost.t :=
  mk_world RefHost.empty 0 (mk_database empty_tables None 0) (mk_task 1000 100).

(** Running one call after another, for the examples. *)
Definition state_after {H A} (m : M H A) (w : world H) : world H :=
  match m w with
  | Ok (_, w') => w'
  | Died _ => w
  end.

Definition result_of {H A} (m : M H A) (w : world H) : option A :=
  match m w with
  | Ok (a, _) => Some a
  | Died _ => None
  end.

(** Worlds reached from [world0]: ["/a"] created with mode [0600]; then
    ["/b"] linked to it; a symbolic link ["/s"]; a block special
    ["/dev/x"] with mode [0660] and device (8,1). *)
Definition statbuf0 : statbuf.t := statbuf.mk 0 0 0 0 0 0 0 0 0 0 0 0 0.
Definition world_a : world RefHost.t :=
  state_after (fakefs_open "/a" (Z.lor O_CREAT_ O_WRONLY) 0x180) world0.
Definition world_ab : world RefHost.t := state_after (fakefs_link "/a" "/b") world_a.
Definition world_s : world RefHost.t :=
  state_after (fakefs_symlink "/nonexistent/target" "/s") world0.
Definition world_x : world RefHost.t :=
  state_after (fakefs_mknod "/dev/x" (Z.lor S_IFBLK 0x1B0) 0x801) world0.

(** ** All the verbs, and the rows they touch *)

(** A call of one of the verbs of the table [fakefs]. *)
Inductive call : Type :=
  | c_open (path : string) (flags mode : Z)
  | c_link (src dst : string)
  | c_unlink (path : string)
  | c_rmdir (path : string)
  | c_rename (src dst : string)
  | c_symlink (target link : string)
  | c_mknod (path : string) (mode dev : Z)
  | c_mkdir (path : string) (mode : Z)
  | c_stat (path : string) (fake_stat : statbuf.t) (follow_links : bool)
  | c_fstat (f : fd) (fake_stat : statbuf.t)
  | c_setattr (path : string) (a : attr)
  | c_fsetattr (f : fd) (a : attr)
  | c_readlink (path : string) (bufsize : Z).

(** The call returns (with whatever result) and leaves the world [w']. *)
Definition returns_to `{host_ops H} (c : call) (w w' : world H) : Prop :=
  match c with
  | c_open path flags mode => ∃ r, fakefs_open path flags mode w = Ok (r, w')
  | c_link src dst => ∃ r, fakefs_link src dst w = Ok (r, w')
  | c_unlink path => ∃ r, fakefs_unlink path w = Ok (r, w')
  | c_rmdir path => ∃ r, fakefs_rmdir path w = Ok (r, w')
  | c_rename src dst => ∃ r, fakefs_rename src dst w = Ok (r, w')
  | c_symlink target link => ∃ r, fakefs_symlink target link w = Ok (r, w')
  | c_mknod path mode dev => ∃ r, fakefs_mknod path mode dev w = Ok (r, w')
  | c_mkdir path mode => ∃ r, fakefs_mkdir path mode w = Ok (r, w')
  | c_stat path fake_stat follow_links =>
      ∃ r, fakefs_stat path fake_stat follow_links w = Ok (r, w')
  | c_fstat f fake_stat => ∃ r, fakefs_fstat f fake_stat w = Ok (r, w')
  | c_setattr path a => ∃ r, fakefs_setattr path a w = Ok (r, w')
  | c_fsetattr f a => ∃ r, fakefs_fsetattr f a w = Ok (r, w')
  | c_readlink path bufsize => ∃ r, fakefs_readlink path bufsize w = Ok (r, w')
  end.

(** What one transaction of a verb does to the relations: nothing, or one
    of the statements [path_create], [path_link], [path_unlink],
    [path_rename], [inode_write_stat]. *)
Inductive row_op : Type :=
  | row_none
  | row_create (path : string) (st : ish_stat)
  | row_link (src dst : string)
  | row_unlink (path : string)
  | row_rename (src dst : string)
  | row_write (inode : Z) (st : ish_stat).

(** The relations after a row operation; [None] where the store refuses
    the statement. *)
Definition apply_row_op (o : row_op) (t : tables) : option tables :=
  match o with
  | row_none => Some t
  | row_create path st =>
      let rowid := Z.max (seq t) (max_rowid (stats t)) + 1 in
      if INT64_MAX <? rowid then None
      else match paths t !! path with
           | Some _ => None
           | None => Some (mk_tables (<[path := rowid]> (paths t))
                             (<[rowid := st]> (stats t)) rowid)
           end
  | row_link src dst =>
      match paths t !! src, paths t !! dst with
      | Some i, None =>
          if i =? 0 then None
          else Some (mk_tables (<[dst := i]> (paths t)) (stats t) (seq t))
      | _, _ => None
      end
  | row_unlink path => Some (mk_tables (delete path (paths t)) (stats t) (seq t))
  | row_rename src dst =>
      match paths t !! src with
      | Some i => Some (mk_tables (<[dst := i]> (delete src (paths t))) (stats t) (seq t))
      | None => Some t
      end
  | row_write i st =>
      match stats t !! i with
      | Some _ => Some (stat_updated t i st)
      | None => Some t
      end
  end.

(** The row operations a call can come to. *)
Definition may_perform (c : call) (o : row_op) : Prop :=
  o = row_none ∨
  match c with
  | c_open path flags _ => Z.land flags O_CREAT_ ≠ 0 ∧ ∃ st, o = row_create path st
  | c_link src dst => o = row_link src dst
  | c_unlink path | c_rmdir path => o = row_unlink path
  | c_rename src dst => o = row_rename src dst
  | c_symlink _ path | c_mknod path _ _ | c_mkdir path _ => ∃ st, o = row_create path st
  | c_setattr _ a => is_size a = false ∧ ∃ i st, o = row_write i st
  | c_fsetattr f a => is_size a = false ∧ ∃ st, o = row_write (fake_inode f) st
  | c_stat _ _ _ | c_fstat _ _ | c_readlink _ _ => False
  end.

(** The store is consistent: every Path record carries a non-zero inode
    number and references a Stat record. *)
Definition store_ok (t : tables) : Prop :=
  map_Forall (λ _ i, i ≠ 0 ∧ is_Some (stats t !! i)) (paths t).

(** The orphan sweep that [fakefs_mount] runs once the store is open:
    [delete from stats where not exists
       (select 1 from paths where inode = stats.inode)]. *)
Definition delete_orphaned_stats (t : tables) : tables :=
  mk_tables (paths t)
    (filter (λ kv, map_Exists (λ _ i, i = kv.1) (paths t)) (stats t))
    (seq t).

(** The start of [fakefs_mount]: the path of the metadata file, from the
    mount source.  [strrchr(db_path, '/')] gives the last slash, the
    assertion wants ["data"] after it, and [strcpy] puts ["meta.db"] in its
    place.  [last_slash] splits a string at its last slash into what comes
    up to and including the slash and what follows.  The buffer
    [db_path] has [PATH_MAX] bytes ([limits.h], a parameter here).  A
    source without a slash leaves the C code with a null pointer, and a
    string that does not fit writes past the buffer; no result is given
    to either here. *)
Fixpoint last_slash (s : string) : option (string * string) :=
  match s with
  | EmptyString => None
  | String c s' =>
      match last_slash s' with
      | Some (dir, base) => Some (String c dir, base)
      | None => if Ascii.eqb c "/" then Some (String c EmptyString, s') else None
      end
  end.

Definition mount_db_path (PATH_MAX : nat) (source : string) : option (outcome string) :=
  if (PATH_MAX <=? String.length source)%nat then None
  else match last_slash source with
       | None => None
       | Some (dir, basename) =>
           if String.eqb basename "data" then
             let db_path := dir +:+ "meta.db" in
             if (PATH_MAX <=? String.length db_path)%nat then None
             else Some (Ok db_path)
           else Some (Died "assertion failed: strcmp(basename, data) == 0")
       end.

(** A host whose volume is full: a file can still be created, every
    write fails. *)
Definition ENOSPC : Z := 28.
Definition full_host_ops : host_ops RefHost.t := {|
  fix_path := RefHost.fix_path;
  errno_table := RefHost.errno_table;
  realfs_open := RefHost.realfs_open;
  fd_close := RefHost.fd_close;
  realfs_link := RefHost.realfs_link;
  realfs_unlink := RefHost.realfs_unlink;
  realfs_rmdir := RefHost.realfs_rmdir;
  realfs_rename := RefHost.realfs_rename;
  realfs_mknod := RefHost.realfs_mknod;
  realfs_mkdir := RefHost.realfs_mkdir;
  realfs_stat := RefHost.realfs_stat;
  realfs_fstat := RefHost.realfs_fstat;
  realfs_setattr := RefHost.realfs_setattr;
  realfs_fsetattr := RefHost.realfs_fsetattr;
  realfs_readlink := RefHost.realfs_readlink;
  sys_openat := RefHost.openat;
  sys_write := λ _ _ h, (SysErr ENOSPC, h);
  sys_read := RefHost.read;
  sys_close := RefHost.close;
  sys_unlinkat := RefHost.unlinkat |}.

(** More worlds: a data tree that came with a symbolic link of the host
    and its record; a host file ["/a"] that the store has no record of; a
    directory ["/d"]; ["/a"] and ["/b"] as two files. *)
Definition world_hostlink : world RefHost.t :=
  mk_world (RefHost.mk {["s" := RefHost.Lnk "/etc/hosts"]} ∅ 3%N false) 0
    (mk_database
       (mk_tables {["/s" := 1]} {[1 := ishstat.mk (Z.lor S_IFLNK perm_0777) 0 0 0]} 1)
       None 1)
    (mk_task 1000 100).
Definition world_norecord : world RefHost.t :=
  mk_world (host world_a) 0 (db world0) (current world0).
Definition world_d : world RefHost.t := state_after (fakefs_mkdir "/d" 0x1ED) world0.
Definition world_a_b : world RefHost.t :=
  state_after (fakefs_open "/b" (Z.lor O_CREAT_ O_WRONLY) 0x1A4) world_a.

(** A host that takes at most five bytes in one write and counts them,
    as write(2) may. *)
Definition short_host_ops : host_ops RefHost.t := {|
  fix_path := RefHost.fix_path;
  errno_table := RefHost.errno_table;
  realfs_open := RefHost.realfs_open;
  fd_close := RefHost.fd_close;
  realfs_link := RefHost.realfs_link;
  realfs_unlink := RefHost.realfs_unlink;
  realfs_rmdir := RefHost.realfs_rmdir;
  realfs_rename := RefHost.realfs_rename;
  realfs_mknod := RefHost.realfs_mknod;
  realfs_mkdir := RefHost.realfs_mkdir;
  realfs_stat := RefHost.realfs_stat;
  realfs_fstat := RefHost.realfs_fstat;
  realfs_setattr := RefHost.realfs_setattr;
  realfs_fsetattr := RefHost.realfs_fsetattr;
  realfs_readlink := RefHost.realfs_readlink;
  sys_openat := RefHost.openat;
  sys_write := λ fd buf h, RefHost.write fd (substring 0 5 buf) h;
  sys_read := RefHost.read;
  sys_close := RefHost.close;
  sys_unlinkat := RefHost.unlinkat |}.

(** ** Proofs *)

(** Unfolding the monad down to matches on the host's answers. *)
Ltac unfold_monad :=
  unfold mbind, M_bind, mret, M_ret, die, get_tab, put_tab, get_current,
    realfs, openat, write, close, unlinkat, read, syscall, errno_map,
    get_errno, set_errno, db_begin, db_commit, db_rollback,
    with_tab, with_db, with_host, with_errno in *;
  simpl in *.

Lemma database_eta (d : database) :
  saved d = None → mk_database (tab d) None (last_insert_rowid d) = d.
Proof. destruct d; simpl; intros ->; reflexivity. Qed.

Lemma negative_Some (e err : Z) : negative e = Some err → e = err ∧ (e <? 0) = true.
Proof. unfold negative. destruct (e <? 0); intros; simplify_eq; done. Qed.

Section rollback.
Context {H : Type} `{!host_ops H}.

(** The shape shared by the verbs that wrap one call of [realfs]. *)
Lemma wrapped_failure (op : H → Z * H) (k : Z → M H Z) (w : world H) (err : Z) :
  idle w → negative (op (host w)).1 = Some err →
  ∃ w', (db_begin;; e ← realfs op; if e <? 0 then db_rollback;; mret e else k e) w
        = Ok (err, w') ∧ db w' = db w.
Proof.
  intros Hidle [<- Hneg]%negative_Some. unfold_monad. rewrite Hidle. simpl.
  destruct (op (host w)) as [e h]; simpl in *. rewrite Hneg.
  eexists; split; [reflexivity|]. simpl. by apply database_eta.
Qed.

Lemma symlink_failure (target link : string) (w : world H) (err : Z) :
  idle w → host_failure (v_symlink target link) (host w) = Some err →
  ∃ w', fakefs_symlink target link w = Ok (err, w') ∧ db w' = db w.
Proof.
  intros Hidle Hf. unfold fakefs_symlink. unfold_monad. rewrite Hidle. simpl.
  destruct (sys_openat _ _ _ _) as [[fd|e] h1]; simpl in *.
  - destruct (fd <? 0); [done|].
    destruct (sys_write _ _ _) as [[n|e] h2]; [done|]. simpl.
    destruct (sys_close _ _) as [[[]|e'] h3]; simpl;
      destruct (sys_unlinkat _ _) as [[[]|e''] h4]; simpl; simplify_eq;
      (eexists; split; [reflexivity|]; simpl; by apply database_eta).
  - simplify_eq. eexists; split; [reflexivity|]. simpl. by apply database_eta.
Qed.

End rollback.

(** C1. If the host side of a mutating verb (link, unlink, rmdir, rename,
    symlink, mknod, mkdir) fails, the verb returns that error and the
    metadata store after the call equals the store before it: relations,
    counter and transaction state. *)
Theorem host_failure_rolls_back `{host_ops H} (v : verb) (w : world H) (err : Z) :
  idle w → host_failure v (host w) = Some err →
  ∃ w', run_verb v w = Ok (err, w') ∧ db w' = db w.
Proof.
  destruct v; simpl; try exact (wrapped_failure _ (λ _, _) w err).
  - apply symlink_failure.
  - unfold mknod_host_mode, fakefs_mknod.
    rewrite !(Z.lor_comm _ perm_0666).
    exact (wrapped_failure _ (λ e, _) w err).
Qed.

Section store.
Context {H : Type} `{!host_ops H}.

Lemma world_eta (w : world H) :
  idle w →
  mk_world (host w) (errno w)
    (mk_database (tab (db w)) None (last_insert_rowid (db w))) (current w) = w.
Proof. intros Hi. rewrite database_eta by done. by destruct w. Qed.

(** [path_create] returns exactly when the path has no row yet and the
    key space is not used up; the new row pair is then in place. *)
Lemma path_create_inv (path : string) (st : ish_stat) (w w' : world H) :
  path_create path st w = Ok (tt, w') →
  ∃ rowid,
    paths (tab (db w)) !! path = None ∧
    tab (db w') = mk_tables (<[path := rowid]> (paths (tab (db w))))
                    (<[rowid := st]> (stats (tab (db w)))) rowid ∧
    saved (db w') = saved (db w) ∧ host w' = host w ∧ current w' = current w.
Proof.
  unfold path_create, path_create_stat, path_create_path. unfold_monad.
  destruct (INT64_MAX <? _); [done|]. simpl.
  destruct (paths (tab (db w)) !! path) eqn:Hp; [done|].
  intros [= <-]. eexists. simpl. done.
Qed.

Lemma overlay_created (t : tables) (path : string) (rowid : Z) (st : ish_stat) :
  overlay (mk_tables (<[path := rowid]> (paths t)) (<[rowid := st]> (stats t)) rowid)
    path = Some (rowid, st).
Proof.
  unfold overlay. simpl. rewrite lookup_insert_eq. simpl. by rewrite lookup_insert_eq.
Qed.

(** The tail shared by the creating verbs: credentials, [path_create],
    [commit]. *)
Lemma create_commit_inv (path : string) (f : task → ish_stat) (r r' : Z)
    (w w' : world H) :
  (cur ← get_current; path_create path (f cur);; db_commit;; mret r) w = Ok (r', w') →
  r' = r ∧ paths (tab (db w)) !! path = None ∧
  (∃ i, overlay (tab (db w')) path = Some (i, f (current w))) ∧
  idle w' ∧ host w' = host w ∧ current w' = current w.
Proof.
  unfold mbind at 1, M_bind at 1, get_current. simpl.
  unfold mbind at 1, M_bind at 1.
  destruct (path_create _ _ w) as [[[] w1]|] eqn:Hc; [|done].
  apply path_create_inv in Hc as (rowid & Hnone & Htab & Hsaved & Hhost & Hcur).
  unfold_monad. destruct (saved (db w1)); [|done]. intros [= <- <-]. simpl.
  rewrite Htab. split_and!; try done. eexists. apply overlay_created.
Qed.

(** [fakefs_stat] in closed form. *)
Lemma fakefs_stat_eq (path : string) (buf : statbuf.t) (follow : bool) (w : world H) :
  idle w →
  fakefs_stat path buf follow w =
  match overlay (tab (db w)) path with
  | None => Ok ((_ENOENT, buf), w)
  | Some (i, st) =>
      let '((err, hb), h') := realfs_stat path buf follow (host w) in
      Ok (if err <? 0 then (err, hb) else (0, project i st hb), with_host w h')
  end.
Proof.
  intros Hi. unfold fakefs_stat, path_read_stat. unfold_monad.
  rewrite Hi. simpl.
  destruct (overlay (tab (db w)) path) as [[i st]|]; simpl;
    [|by rewrite world_eta].
  destruct (realfs_stat _ _ _ _) as [[err hb] h']. simpl.
  rewrite database_eta by done. by destruct (err <? 0).
Qed.

End store.

Section inversion.
Context {H : Type} `{!host_ops H}.

Lemma bind_inv {A B} (m : M H A) (f : A → M H B) (w w' : world H) (b : B) :
  (m ≫= f) w = Ok (b, w') → ∃ a w1, m w = Ok (a, w1) ∧ f a w1 = Ok (b, w').
Proof.
  unfold mbind, M_bind. destruct (m w) as [[a w1]|]; [|done]. eauto.
Qed.

Lemma ret_inv {A} (a b : A) (w w' : world H) :
  (mret a : M H A) w = Ok (b, w') → b = a ∧ w' = w.
Proof. unfold mret, M_ret. by intros [= -> ->]. Qed.

Lemma db_begin_inv (w w' : world H) (u : unit) :
  db_begin w = Ok (u, w') →
  idle w ∧ w' = with_db w (mk_database (tab (db w)) (Some (tab (db w)))
                             (last_insert_rowid (db w))).
Proof. unfold db_begin, idle. destruct (saved (db w)); [done|]. by intros [= <- <-]. Qed.

Lemma realfs_inv {A} (op : H → A * H) (w w' : world H) (a : A) :
  realfs op w = Ok (a, w') → ∃ h, op (host w) = (a, h) ∧ w' = with_host w h.
Proof. unfold realfs. destruct (op (host w)) as [a' h]. intros [= <- <-]. eauto. Qed.

(** A creating verb once its host call has gone through: the transaction
    was opened in an idle store and is committed around [path_create]. *)
Lemma wrapped_create_inv (op : H → Z * H) (path : string) (f : task → ish_stat)
    (g : Z → Z) (w w' : world H) (r : Z) :
  (db_begin;;
   err ← realfs op;
   if err <? 0 then db_rollback;; mret err
   else cur ← get_current; path_create path (f cur);; db_commit;; mret (g err)) w
  = Ok (r, w') →
  (∀ err, 0 ≤ err → 0 ≤ g err) → 0 ≤ r →
  ∃ err, op (host w) = (err, host w') ∧ 0 ≤ err ∧ r = g err ∧
    idle w ∧ paths (tab (db w)) !! path = None ∧
    (∃ i, overlay (tab (db w')) path = Some (i, f (current w))) ∧
    idle w' ∧ current w' = current w.
Proof.
  intros (u & w1 & (Hi & ->)%db_begin_inv & (err & w2 & Hop & Hk)%bind_inv)%bind_inv Hg Hr.
  apply realfs_inv in Hop as (h & Hop & ->). simpl in Hop.
  destruct (err <? 0) eqn:Herr.
  - apply bind_inv in Hk as (? & ? & _ & [-> _]%ret_inv). lia.
  - apply create_commit_inv in Hk as (-> & Hnone & Hov & Hi' & Hh & Hc).
    simpl in *. rewrite Hh. exists err. split_and!; try done. lia.
Qed.

End inversion.

(** C5. [stat] of a path without a Path record is not found and leaves
    everything as it was; with a Path record, the Stat record it references
    and a host stat that succeeds, the buffer it returns has inode, mode,
    uid, gid and rdev of the overlay and every other field of the host's
    buffer. *)
Theorem fakefs_stat_projects `{host_ops H} (path : string) (buf : statbuf.t)
    (follow_links : bool) (w : world H) :
  idle w →
  (paths (tab (db w)) !! path = None →
   fakefs_stat path buf follow_links w = Ok ((_ENOENT, buf), w)) ∧
  (∀ i st err hb h',
     paths (tab (db w)) !! path = Some i →
     stats (tab (db w)) !! i = Some st →
     realfs_stat path buf follow_links (host w) = ((err, hb), h') →
     0 ≤ err →
     ∃ out,
       fakefs_stat path buf follow_links w = Ok ((0, out), with_host w h') ∧
       statbuf.inode out = i ∧
       statbuf.mode out = ishstat.mode st ∧
       statbuf.uid out = ishstat.uid st ∧
       statbuf.gid out = ishstat.gid st ∧
       statbuf.rdev out = ishstat.rdev st ∧
       statbuf.dev out = statbuf.dev hb ∧
       statbuf.nlink out = statbuf.nlink hb ∧
       statbuf.size out = statbuf.size hb ∧
       statbuf.blksize out = statbuf.blksize hb ∧
       statbuf.blocks out = statbuf.blocks hb ∧
       statbuf.atime out = statbuf.atime hb ∧
       statbuf.mtime out = statbuf.mtime hb ∧
       statbuf.ctime out = statbuf.ctime hb).
Proof.
  intros Hi. split.
  - intros Hp. rewrite fakefs_stat_eq by done. unfold overlay. by rewrite Hp.
  - intros i st err hb h' Hp Hs Hhost Herr.
    exists (project i st hb). rewrite fakefs_stat_eq by done.
    unfold overlay. rewrite Hp. simpl. rewrite Hs. simpl. rewrite Hhost.
    destruct (err <? 0) eqn:E; [lia|]. done.
Qed.

Section creation.
Context {H : Type} `{!host_ops H}.

Lemma syscall_inv {A} (fail : A) (op : H → sysres A * H) (w w' : world H) (a : A) :
  syscall fail op w = Ok (a, w') →
  ∃ r, op (host w) = (r, host w') ∧ db w' = db w ∧ current w' = current w ∧
       match r with
       | SysOk a' => a = a' ∧ errno w' = errno w
       | SysErr e => a = fail ∧ errno w' = e
       end.
Proof.
  unfold syscall. destruct (op (host w)) as [[a'|e] h]; intros [= <- <-];
    eexists; simpl; done.
Qed.

Lemma errno_map_inv (w w' : world H) (r : Z) :
  errno_map w = Ok (r, w') → r = errno_table (errno w).
Proof. unfold errno_map. by intros [= <- <-]. Qed.

(** A [symlink] that returns success went through the exclusive creation,
    the write and the close, and created the record pair of the link. *)
Lemma fakefs_symlink_inv (target link : string) (w w' : world H) (r : Z) :
  (∀ e, errno_table e < 0) →
  fakefs_symlink target link w = Ok (r, w') → 0 ≤ r →
  ∃ fd h1 n h2 c,
    sys_openat (fix_path link) (Z.lor (Z.lor O_WRONLY O_CREAT) O_EXCL) perm_0666
      (host w) = (SysOk fd, h1) ∧
    sys_write fd target h1 = (SysOk n, h2) ∧
    sys_close fd h2 = (c, host w') ∧
    r = 0 ∧ idle w ∧ paths (tab (db w)) !! link = None ∧
    (∃ i, overlay (tab (db w')) link
          = Some (i, ishstat.mk (Z.lor S_IFLNK perm_0777)
                       (euid (current w)) (egid (current w)) 0)) ∧
    idle w' ∧ current w' = current w.
Proof.
  intros Hneg (u & w1 & (Hi & ->)%db_begin_inv & (fd & w2 & Hopen & Hk)%bind_inv)%bind_inv Hr.
  apply syscall_inv in Hopen as (ro & Hopen & Hdb2 & Hcur2 & Hro). simpl in *.
  destruct (fd <? 0) eqn:Hfd.
  { apply bind_inv in Hk as (? & wx & _ & ->%errno_map_inv).
    specialize (Hneg (errno wx)). lia. }
  destruct ro as [fd'|e]; destruct Hro as [-> _]; [|done].
  apply bind_inv in Hk as (res & w3 & Hwrite & Hk).
  apply syscall_inv in Hwrite as (rw & Hwrite & Hdb3 & Hcur3 & Hrw).
  apply bind_inv in Hk as (u' & w4 & Hclose & Hk).
  apply syscall_inv in Hclose as (rc & Hclose & Hdb4 & Hcur4 & Hrc).
  destruct (res <? 0) eqn:Hres.
  { apply bind_inv in Hk as (? & ? & _ & Hk).
    apply bind_inv in Hk as (? & ? & _ & Hk).
    apply bind_inv in Hk as (? & ? & _ & Hk).
    apply bind_inv in Hk as (? & w5 & _ & ->%errno_map_inv).
    specialize (Hneg (errno w5)). lia. }
  destruct rw as [n|e]; destruct Hrw as [-> _]; [|done].
  apply create_commit_inv in Hk as (-> & Hnone & Hov & Hi' & Hh & Hc).
  rewrite Hdb4, Hdb3, Hdb2 in Hnone. rewrite Hcur4, Hcur3, Hcur2 in Hov, Hc.
  simpl in *. rewrite Hh.
  exists fd', (host w2), n, (host w3), rc. split_and!; done.
Qed.

Lemma fakefs_mknod_inv (path : string) (mode dev r : Z) (w w' : world H) :
  fakefs_mknod path mode dev w = Ok (r, w') → 0 ≤ r →
  realfs_mknod path
    (if S_ISBLK mode || S_ISCHR mode then Z.lor perm_0666 S_IFREG
     else Z.lor perm_0666 (Z.land mode S_IFMT)) 0 (host w) = (r, host w') ∧
  (∃ i, overlay (tab (db w')) path
        = Some (i, ishstat.mk mode (euid (current w)) (egid (current w))
                     (if S_ISBLK mode || S_ISCHR mode then dev else 0))) ∧
  idle w' ∧ current w' = current w.
Proof.
  intros Hrun Hr. unfold fakefs_mknod in Hrun.
  apply (wrapped_create_inv _ path
           (λ cur, ishstat.mk mode (euid cur) (egid cur)
                     (if S_ISBLK mode || S_ISCHR mode then dev else 0))
           (λ e, e)) in Hrun
    as (err & Hop & Herr & -> & Hi & Hnone & Hov & Hi' & Hcur); done.
Qed.

End creation.

(** C3. A [mknod] that succeeds hands the host a regular file of mode
    [S_IFREG | 0666] for a character or block special and
    [S_IFMT(mode) | 0666] otherwise; the Stat record it creates holds the
    requested mode as it is, the device number for a character or block
    special and zero otherwise; and a later [stat] of the path, when the
    host's stat succeeds, reports that mode and that device number. *)
Theorem fakefs_mknod_records `{host_ops H} (path : string) (mode dev r : Z)
    (w w' : world H) :
  fakefs_mknod path mode dev w = Ok (r, w') → 0 ≤ r →
  let special := S_ISBLK mode || S_ISCHR mode in
  let rdev := if special then dev else 0 in
  realfs_mknod path
    (if special then Z.lor S_IFREG perm_0666 else Z.lor (Z.land mode S_IFMT) perm_0666)
    0 (host w) = (r, host w') ∧
  (∃ i, overlay (tab (db w')) path
        = Some (i, ishstat.mk mode (euid (current w)) (egid (current w)) rdev)) ∧
  (∀ buf follow_links err hb h',
     realfs_stat path buf follow_links (host w') = ((err, hb), h') → 0 ≤ err →
     ∃ out, fakefs_stat path buf follow_links w' = Ok ((0, out), with_host w' h') ∧
            statbuf.mode out = mode ∧ statbuf.rdev out = rdev).
Proof.
  intros Hrun Hr special rdev.
  apply fakefs_mknod_inv in Hrun as (Hop & [i Hov] & Hi' & Hcur); [|done].
  split_and!.
  - rewrite <- Hop. subst special. rewrite !(Z.lor_comm _ perm_0666). done.
  - eauto.
  - intros buf follow e hb h' Hst He. exists (project i (ishstat.mk mode
      (euid (current w)) (egid (current w)) rdev) hb).
    rewrite fakefs_stat_eq by done. rewrite Hov, Hst.
    destruct (e <? 0) eqn:E; [lia|]. done.
Qed.

(** C9. The Stat record created by a [mkdir], a [symlink] or a [mknod]
    that succeeds carries the effective uid and gid of the calling task. *)
Theorem created_stat_has_caller_credentials `{host_ops H} :
  (∀ e, errno_table e < 0) →
  let owned_by_caller (w w' : world H) (path : string) :=
    ∃ i st, overlay (tab (db w')) path = Some (i, st) ∧
            ishstat.uid st = euid (current w) ∧
            ishstat.gid st = egid (current w) in
  (∀ path mode w w',
     fakefs_mkdir path mode w = Ok (0, w') → owned_by_caller w w' path) ∧
  (∀ target link w w',
     fakefs_symlink target link w = Ok (0, w') → owned_by_caller w w' link) ∧
  (∀ path mode dev r w w',
     fakefs_mknod path mode dev w = Ok (r, w') → 0 ≤ r → owned_by_caller w w' path).
Proof.
  intros Hneg owned. subst owned. split_and!.
  - intros path mode w w' Hrun. unfold fakefs_mkdir in Hrun.
    apply (wrapped_create_inv _ path
             (λ cur, ishstat.mk (Z.lor mode S_IFDIR) (euid cur) (egid cur) 0)
             (λ _, 0)) in Hrun as (_ & _ & _ & _ & _ & _ & [i Hov] & _); [|done..].
    eauto.
  - intros target link w w' Hrun.
    apply fakefs_symlink_inv in Hrun
      as (_ & _ & _ & _ & _ & _ & _ & _ & _ & _ & _ & [i Hov] & _); [|done..].
    eauto.
  - intros path mode dev r w w' Hrun Hr.
    apply fakefs_mknod_inv in Hrun as (_ & [i Hov] & _); [|done]. eauto.
Qed.

Lemma int_small (n : Z) : 0 ≤ n → n ≤ INT_MAX → int n = n.
Proof.
  unfold int, INT_MAX. intros. rewrite Z.mod_small; lia.
Qed.

(** C10. [symlink] onto a link path at which the host already has an entry
    fails with the host's exists error, the file being created with the
    exclusive flag, and leaves the metadata store as it was: nothing is
    created and a record for the link path, if there is one, stays. *)
Theorem fakefs_symlink_existing_entry `{host_laws H} (target link : string)
    (w : world H) :
  idle w → is_Some (host_lookup (host w) (fix_path link)) →
  ∃ w', fakefs_symlink target link w = Ok (errno_table EEXIST, w') ∧ db w' = db w.
Proof.
  intros Hi Hex. apply symlink_failure; [done|]. simpl.
  destruct (openat_excl_exists (host w) (fix_path link) perm_0666 Hex) as [h' ->].
  done.
Qed.

(** What [readlink] gives back after a [symlink] that succeeded: the bytes
    of the target that the host's write counted.  The return value of
    [write] is only tested for an error, so these need not be all of them.
    The count of [read] passes through an [int], hence the bound. *)
Lemma symlink_readlink_written `{host_laws H} (target link : string)
    (bufsize : Z) (w w1 : world H) (fd : Z) (h1 : H) (n : Z) (h2 : H) :
  fakefs_symlink target link w = Ok (0, w1) →
  sys_openat (fix_path link) (Z.lor (Z.lor O_WRONLY O_CREAT) O_EXCL) perm_0666 (host w)
    = (SysOk fd, h1) →
  sys_write fd target h1 = (SysOk n, h2) →
  let written := substring 0 (Z.to_nat n) target in
  Z.of_nat (String.length written) ≤ bufsize →
  Z.of_nat (String.length written) ≤ INT_MAX →
  ∃ w2, fakefs_readlink link bufsize w1
        = Ok ((Z.of_nat (String.length written), written), w2).
Proof.
  intros Hsym Hopen0 Hwrite0 written Hbuf Hint.
  apply fakefs_symlink_inv in Hsym
    as (fd' & h1' & n' & h2' & c & Hopen & Hwrite & Hclose & _ & _ & _ & [i Hov] & Hi1 & _);
    [|apply errno_table_negative|done].
  rewrite Hopen0 in Hopen. injection Hopen as <- <-.
  rewrite Hwrite0 in Hwrite. injection Hwrite as <- <-.
  pose proof (create_write_close _ _ _ _ _ _ _ _ _ _ Hopen0 Hwrite0 Hclose) as Hreg.
  fold written in Hreg.
  destruct (readlink_regular _ link bufsize _ Hreg) as (buf & h3 & Hrl & Hreg3).
  destruct (open_read_regular _ _ bufsize _ Hreg3 Hbuf)
    as (fd' & h4 & h5 & Hopen' & Hfd' & Hread).
  unfold fakefs_readlink, file_readlink, path_read_stat. unfold_monad.
  rewrite Hi1. simpl. rewrite Hov. simpl.
  rewrite Hrl. simpl. rewrite Hopen'. simpl.
  destruct (fd' <? 0) eqn:E; [lia|]. simpl. rewrite Hread. simpl.
  rewrite int_small by lia.
  destruct (Z.of_nat (String.length written) <? 0) eqn:E'; [lia|].
  destruct (sys_close fd' h5) as [[[]|e] h6]; simpl; eauto.
Qed.

(** ** Attributes *)

Lemma overlay_Some (t : tables) (path : string) (i : Z) (st : ish_stat) :
  overlay t path = Some (i, st) ↔ paths t !! path = Some i ∧ stats t !! i = Some st.
Proof.
  unfold overlay. destruct (paths t !! path) as [j|]; simpl.
  - destruct (stats t !! j) as [st'|] eqn:E; simpl; split.
    + by intros [= <- <-].
    + intros [[= <-] Hs]. rewrite E in Hs. by simplify_eq.
    + done.
    + intros [[= <-] Hs]. by rewrite E in Hs.
  - split; [done|]. by intros [? _].
Qed.

Lemma type_bits_kept (old new : Z) :
  Z.land (Z.lor (Z.land old S_IFMT) (Z.land new (Z.lnot S_IFMT))) S_IFMT
  = Z.land old S_IFMT.
Proof.
  rewrite Z.land_lor_distr_l, <- !Z.land_assoc, Z.land_diag.
  rewrite (Z.land_comm (Z.lnot S_IFMT)), Z.land_lnot_diag, Z.land_0_r.
  apply Z.lor_0_r.
Qed.

Lemma other_bits_replaced (old new : Z) :
  Z.land (Z.lor (Z.land old S_IFMT) (Z.land new (Z.lnot S_IFMT))) (Z.lnot S_IFMT)
  = Z.land new (Z.lnot S_IFMT).
Proof.
  rewrite Z.land_lor_distr_l, <- !Z.land_assoc, Z.land_diag.
  rewrite Z.land_lnot_diag, Z.land_0_r. apply Z.lor_0_l.
Qed.

Section attributes.
Context {H : Type} `{!host_ops H}.

(** [fakefs_setattr] in closed form, for the attributes the overlay keeps. *)
Lemma fakefs_setattr_eq (path : string) (a : attr) (w : world H) :
  idle w → is_size a = false →
  fakefs_setattr path a w =
  match overlay (tab (db w)) path with
  | None => Ok (_ENOENT, w)
  | Some (i, st) => Ok (0, with_tab w (stat_updated (tab (db w)) i (fake_stat_setattr st a)))
  end.
Proof.
  intros Hi Ha.
  assert (fakefs_setattr path a w =
    (db_begin;;
     r ← path_read_stat path;
     match r with
     | None => db_rollback;; mret _ENOENT
     | Some (inode, ishstat) =>
         inode_write_stat inode (fake_stat_setattr ishstat a);; db_commit;; mret 0
     end) w) as -> by (by destruct a).
  unfold path_read_stat, inode_write_stat. unfold_monad. rewrite Hi. simpl.
  destruct (overlay (tab (db w)) path) as [[i st]|] eqn:Hov; simpl.
  - apply overlay_Some in Hov as [_ ->]. simpl. unfold stat_updated. by rewrite Hi.
  - by rewrite world_eta.
Qed.

(** [fakefs_fsetattr] in closed form. *)
Lemma fakefs_fsetattr_eq (f : fd) (a : attr) (w : world H) (st : ish_stat) :
  idle w → is_size a = false → stats (tab (db w)) !! fake_inode f = Some st →
  fakefs_fsetattr f a w
  = Ok (0, with_tab w (stat_updated (tab (db w)) (fake_inode f) (fake_stat_setattr st a))).
Proof.
  intros Hi Ha Hst.
  assert (fakefs_fsetattr f a w =
    (db_begin;;
     ishstat ← inode_read_stat (fake_inode f);
     inode_write_stat (fake_inode f) (fake_stat_setattr ishstat a);;
     db_commit;; mret 0) w) as -> by (by destruct a).
  unfold inode_read_stat, inode_write_stat. unfold_monad. rewrite Hi. simpl.
  rewrite Hst. simpl. rewrite Hst. simpl. done.
Qed.

End attributes.

(** C6. [setattr] and [fsetattr] with a mode attribute leave the file-type
    bits ([S_IFMT]) of the stored mode as they were and replace the other
    bits by those of the requested mode; uid, gid and rdev stay. *)
Theorem setattr_mode_keeps_file_type `{host_ops H} (w : world H) (i : Z)
    (st : ish_stat) (m : Z) :
  idle w → stats (tab (db w)) !! i = Some st →
  let changed (w' : world H) :=
    ∃ st', stats (tab (db w')) !! i = Some st' ∧
      Z.land (ishstat.mode st') S_IFMT = Z.land (ishstat.mode st) S_IFMT ∧
      Z.land (ishstat.mode st') (Z.lnot S_IFMT) = Z.land m (Z.lnot S_IFMT) ∧
      ishstat.uid st' = ishstat.uid st ∧ ishstat.gid st' = ishstat.gid st ∧
      ishstat.rdev st' = ishstat.rdev st in
  (∀ path, paths (tab (db w)) !! path = Some i →
     ∃ w', fakefs_setattr path (attr_mode m) w = Ok (0, w') ∧ changed w') ∧
  (∀ f, fake_inode f = i →
     ∃ w', fakefs_fsetattr f (attr_mode m) w = Ok (0, w') ∧ changed w').
Proof.
  intros Hi Hst changed.
  assert (∀ w', tab (db w') = stat_updated (tab (db w)) i
                               (fake_stat_setattr st (attr_mode m)) → changed w')
    as Hchanged.
  { intros w' Ht. eexists. rewrite Ht. simpl. rewrite lookup_insert_eq.
    split; [done|]. simpl. split_and!; try done.
    - apply type_bits_kept.
    - apply other_bits_replaced. }
  split.
  - intros path Hp. rewrite fakefs_setattr_eq by done.
    assert (overlay (tab (db w)) path = Some (i, st)) as -> by (by apply overlay_Some).
    eexists; split; [done|]. by apply Hchanged.
  - intros f <-. erewrite fakefs_fsetattr_eq by done.
    eexists; split; [done|]. by apply Hchanged.
Qed.

(** ** Names: link, unlink and open *)

Section names.
Context {H : Type} `{!host_ops H}.

(** A [link] that succeeds binds [dst] to the inode of [src]. *)
Lemma fakefs_link_inv (src dst : string) (w w' : world H) (r : Z) :
  fakefs_link src dst w = Ok (r, w') → 0 ≤ r →
  ∃ i err,
    realfs_link src dst (host w) = (err, host w') ∧ 0 ≤ err ∧ r = 0 ∧ idle w ∧
    paths (tab (db w)) !! src = Some i ∧ i ≠ 0 ∧ paths (tab (db w)) !! dst = None ∧
    tab (db w') = mk_tables (<[dst := i]> (paths (tab (db w))))
                    (stats (tab (db w))) (seq (tab (db w))) ∧
    idle w' ∧ current w' = current w.
Proof.
  unfold fakefs_link, path_link, path_get_inode. unfold_monad. unfold idle.
  destruct (saved (db w)) eqn:Hs; [done|]. simpl.
  destruct (realfs_link src dst (host w)) as [err h]. simpl.
  destruct (err <? 0) eqn:Herr; simpl.
  { intros [= <- <-]. lia. }
  destruct (paths (tab (db w)) !! src) as [i|]; simpl; [|done].
  destruct (i =? 0) eqn:Hi0; [done|]. simpl.
  destruct (paths (tab (db w)) !! dst) eqn:Hd; [done|]. simpl.
  intros [= <- <-] _. exists i, err. simpl. split_and!; try done; lia.
Qed.

(** An [unlink] that succeeds deletes the row of the path and nothing
    else. *)
Lemma fakefs_unlink_inv (path : string) (w w' : world H) (r : Z) :
  fakefs_unlink path w = Ok (r, w') → 0 ≤ r →
  ∃ err,
    realfs_unlink path (host w) = (err, host w') ∧ 0 ≤ err ∧ r = 0 ∧ idle w ∧
    tab (db w') = mk_tables (delete path (paths (tab (db w))))
                    (stats (tab (db w))) (seq (tab (db w))) ∧
    idle w' ∧ current w' = current w.
Proof.
  unfold fakefs_unlink, path_unlink. unfold_monad. unfold idle.
  destruct (saved (db w)) eqn:Hs; [done|]. simpl.
  destruct (realfs_unlink path (host w)) as [err h]. simpl.
  destruct (err <? 0) eqn:Herr; simpl.
  { intros [= <- <-]. lia. }
  intros [= <- <-] _. exists err. simpl. split_and!; try done; lia.
Qed.

(** An [open] with [O_CREAT_] that returns a descriptor: the host opened
    the file with mode [0666]; a path without a row got a fresh record
    pair, a path with a row kept it. *)
Lemma fakefs_open_creat_inv (path : string) (flags mode : Z) (w w' : world H) (f : fd) :
  Z.land flags O_CREAT_ ≠ 0 →
  fakefs_open path flags mode w = Ok (inr f, w') →
  ∃ hfd,
    realfs_open path flags perm_0666 (host w) = (inr hfd, host w') ∧
    idle w ∧ idle w' ∧ current w' = current w ∧ fake_inode f ≠ 0 ∧
    match paths (tab (db w)) !! path with
    | None =>
        overlay (tab (db w')) path
        = Some (fake_inode f,
                ishstat.mk (dword (Z.lor mode S_IFREG))
                  (euid (current w)) (egid (current w)) 0)
    | Some i => tab (db w') = tab (db w) ∧ fake_inode f = i
    end.
Proof.
  intros Hfl. unfold fakefs_open, path_get_inode. unfold_monad. unfold idle.
  destruct (realfs_open path flags perm_0666 (host w)) as [[err|hfd] h]; simpl; [done|].
  destruct (saved (db w)) eqn:Hs; [done|]. simpl.
  destruct (Z.land flags O_CREAT_ =? 0) eqn:Hc; [lia|]. simpl.
  destruct (paths (tab (db w)) !! path) as [i|] eqn:Hp; simpl.
  - destruct (i =? 0) eqn:Hi0; simpl.
    + destruct (path_create _ _ _) as [[[] w1]|] eqn:Hcr; [|done].
      apply path_create_inv in Hcr as (? & Hnone & _). simpl in Hnone. congruence.
    + rewrite Hi0. intros [= <- <-]. exists hfd. simpl. split_and!; try done. lia.
  - destruct (path_create _ _ _) as [[[] w1]|] eqn:Hcr; [|done].
    apply path_create_inv in Hcr as (rowid & _ & Htab & Hsaved & Hhost & Hcur).
    simpl in *. rewrite Htab, Hsaved. simpl. rewrite lookup_insert_eq. simpl.
    destruct (rowid =? 0) eqn:Hr0; [by destruct (fd_close _ _)|].
    intros [= <- <-]. exists hfd. simpl. rewrite Hhost.
    split_and!; try done; [lia|]. apply (overlay_created (tab (db w))).
Qed.

End names.

Section observers.
Context {H : Type} `{!host_ops H}.

(** What [stat] reports for a path the overlay knows, when the host's
    stat succeeds. *)
Lemma fakefs_stat_reports (path : string) (buf : statbuf.t) (follow : bool)
    (w : world H) (i : Z) (st : ish_stat) (err : Z) (hb : statbuf.t) (h' : H) :
  idle w → overlay (tab (db w)) path = Some (i, st) →
  realfs_stat path buf follow (host w) = ((err, hb), h') → 0 ≤ err →
  fakefs_stat path buf follow w = Ok ((0, project i st hb), with_host w h').
Proof.
  intros Hi Hov Hst Herr. rewrite fakefs_stat_eq by done. rewrite Hov, Hst.
  destruct (err <? 0) eqn:E; [lia|]. done.
Qed.

Lemma fakefs_setattr_idle (path : string) (a : attr) (w w' : world H) (r : Z) :
  is_size a = false → fakefs_setattr path a w = Ok (r, w') → idle w.
Proof.
  unfold idle. intros Ha. destruct (saved (db w)) eqn:Hs; [|done].
  destruct a; try done; unfold fakefs_setattr; unfold_monad; by rewrite Hs.
Qed.

End observers.

(** C4. A [link] that succeeds leaves both paths on one Stat record; and
    for two paths on one Stat record, after a [setattr] of the uid through
    one of them that succeeds, the record seen through the other has that
    uid and [stat] of the other reports it. *)
Theorem setattr_uid_seen_through_links `{host_ops H} (p q : string) :
  (∀ w w' : world H,
     fakefs_link p q w = Ok (0, w') → same_stat_record (tab (db w')) p q) ∧
  (∀ (w w' : world H) (U : Z),
     same_stat_record (tab (db w)) p q →
     fakefs_setattr p (attr_uid U) w = Ok (0, w') →
     (∃ i st, overlay (tab (db w')) p = Some (i, st) ∧
              overlay (tab (db w')) q = Some (i, st) ∧ ishstat.uid st = U) ∧
     (∀ buf follow_links err hb h',
        realfs_stat q buf follow_links (host w') = ((err, hb), h') → 0 ≤ err →
        ∃ out, fakefs_stat q buf follow_links w' = Ok ((0, out), with_host w' h') ∧
               statbuf.uid out = U)).
Proof.
  split.
  - intros w w' Hl.
    apply fakefs_link_inv in Hl
      as (i & err & _ & _ & _ & _ & Hp & _ & Hq & Htab & _); [|done].
    exists i. rewrite Htab. simpl. split.
    + rewrite lookup_insert_ne; [done|]. intros ->. congruence.
    + apply lookup_insert_eq.
  - intros w w' U (i & Hp & Hq) Hset.
    pose proof (fakefs_setattr_idle p (attr_uid U) w w' 0 eq_refl Hset) as Hi.
    rewrite fakefs_setattr_eq in Hset by done.
    destruct (overlay (tab (db w)) p) as [[j st]|] eqn:Hov; [|done].
    apply overlay_Some in Hov as [Hp' Hst]. simplify_eq.
    set (st' := fake_stat_setattr st (attr_uid U)).
    assert (∀ x, paths (tab (db w)) !! x = Some i →
                 overlay (stat_updated (tab (db w)) i st') x = Some (i, st')) as Hx.
    { intros x Hpx. apply overlay_Some. simpl. split; [done|]. apply lookup_insert_eq. }
    split.
    + exists i, st'. simpl. split_and!; [by apply Hx..|done].
    + intros buf follow err hb h' Hst' Herr. eexists. split.
      * apply fakefs_stat_reports with (err := err); [done| by apply Hx |done..].
      * done.
Qed.

(** C7. After an [unlink] that succeeds, [stat] of the path is not found;
    no Stat record is deleted or changed; and every other path, a hard-link
    sibling in particular, keeps the record pair it had, so that its [stat]
    still reports the same inode, mode, uid, gid and rdev. *)
Theorem unlink_removes_path_only `{host_ops H} (p : string) (w w' : world H) :
  fakefs_unlink p w = Ok (0, w') →
  (∀ buf follow_links,
     fakefs_stat p buf follow_links w' = Ok ((_ENOENT, buf), w')) ∧
  stats (tab (db w')) = stats (tab (db w)) ∧
  (∀ q i st,
     q ≠ p → overlay (tab (db w)) q = Some (i, st) →
     overlay (tab (db w')) q = Some (i, st) ∧
     ∀ buf follow_links err hb h',
       realfs_stat q buf follow_links (host w') = ((err, hb), h') → 0 ≤ err →
       ∃ out, fakefs_stat q buf follow_links w' = Ok ((0, out), with_host w' h') ∧
              statbuf.inode out = i ∧
              statbuf.mode out = ishstat.mode st ∧
              statbuf.uid out = ishstat.uid st ∧
              statbuf.gid out = ishstat.gid st ∧
              statbuf.rdev out = ishstat.rdev st).
Proof.
  intros Hun.
  apply fakefs_unlink_inv in Hun as (err & _ & _ & _ & _ & Htab & Hi' & _); [|done].
  split_and!.
  - intros buf follow. rewrite fakefs_stat_eq by done.
    unfold overlay. rewrite Htab. simpl. by rewrite lookup_delete_eq.
  - by rewrite Htab.
  - intros q i st Hq Hov.
    assert (overlay (tab (db w')) q = Some (i, st)) as Hov'.
    { apply overlay_Some in Hov as [Hp Hs]. apply overlay_Some.
      rewrite Htab. simpl. by rewrite lookup_delete_ne. }
    split; [done|]. intros buf follow e hb h' Hst He. eexists. split.
    + by apply fakefs_stat_reports with (err := e).
    + done.
Qed.

Lemma dword_lor_small (mode : Z) :
  0 ≤ mode < 2 ^ 32 → dword (Z.lor mode S_IFREG) = Z.lor mode S_IFREG.
Proof.
  intros [Hlo Hhi]. unfold dword. apply Z.mod_small. split.
  - apply Z.lor_nonneg. by split.
  - assert (0 < Z.lor mode S_IFREG) as Hpos.
    { assert (0 ≤ Z.lor mode S_IFREG) by (by apply Z.lor_nonneg).
      assert (Z.lor mode S_IFREG ≠ 0); [|lia].
      intros [_ ?]%Z.lor_eq_0_iff. done. }
    apply Z.log2_lt_pow2; [done|]. rewrite Z.log2_lor by done.
    destruct (decide (mode = 0)) as [->|]; [done|].
    apply Z.max_lub_lt; [|done]. apply Z.log2_lt_pow2; lia.
Qed.

(** C8, restricted to new paths. An [open] with [O_CREAT] that returns a
    descriptor went through the host's open with mode [0666], and, on a
    host whose open leaves an entry at the path it opened, the host file
    at the path exists.  For a path
    that had no Path record it creates one whose Stat record has mode
    [mode | S_IFREG] (as a [dword_t]), the effective uid and gid of the
    caller and rdev zero, the descriptor carries its inode, and [stat] of
    the path reports that mode.  For a path that had a Path record the
    relations are left as they were. *)
Theorem fakefs_open_creat_new_path `{host_laws H} (path : string) (flags mode : Z)
    (w w' : world H) (f : fd) :
  open_leaves_entry H →
  Z.land flags O_CREAT_ ≠ 0 →
  fakefs_open path flags mode w = Ok (inr f, w') →
  (∃ hfd, realfs_open path flags perm_0666 (host w) = (inr hfd, host w')) ∧
  is_Some (host_lookup (host w') (fix_path path)) ∧
  (paths (tab (db w)) !! path = None →
     overlay (tab (db w')) path
     = Some (fake_inode f,
             ishstat.mk (dword (Z.lor mode S_IFREG))
               (euid (current w)) (egid (current w)) 0) ∧
     (0 ≤ mode < 2 ^ 32 → dword (Z.lor mode S_IFREG) = Z.lor mode S_IFREG) ∧
     (∀ buf follow_links err hb h',
        realfs_stat path buf follow_links (host w') = ((err, hb), h') → 0 ≤ err →
        ∃ out, fakefs_stat path buf follow_links w' = Ok ((0, out), with_host w' h') ∧
               statbuf.mode out = dword (Z.lor mode S_IFREG))) ∧
  (is_Some (paths (tab (db w)) !! path) → tab (db w') = tab (db w)).
Proof.
  intros Hentry Hfl Hopen.
  apply fakefs_open_creat_inv in Hopen as (hfd & Hhost & Hi & Hi' & Hcur & Hino & Hcase);
    [|done].
  split_and!.
  - eauto.
  - by apply (Hentry _ _ _ _ _ _ Hhost).
  - intros Hnone. rewrite Hnone in Hcase. split_and!.
    + done.
    + apply dword_lor_small.
    + intros buf follow err hb h' Hst Herr. eexists. split.
      * by apply fakefs_stat_reports with (err := err).
      * done.
  - intros [i Hsome]. rewrite Hsome in Hcase. by destruct Hcase.
Qed.

(** C8 without the restriction to new paths does not hold: an [open] with
    [O_CREAT] and mode [0644] of a path that already has a record of mode
    [0600] succeeds and [stat] still reports [0600 | S_IFREG]. *)
Lemma fakefs_open_creat_existing_path :
  let reopened := fakefs_open "/a" (Z.lor O_CREAT_ O_WRONLY) 0x1A4 in
  result_of reopened world_a = Some (inr (mk_fd 4 1)) ∧
  (λ r, (r.1, statbuf.mode r.2))
    <$> result_of (fakefs_stat "/a" statbuf0 true) (state_after reopened world_a)
  = Some (0, Z.lor 0x180 S_IFREG) ∧
  Z.lor 0x180 S_IFREG ≠ Z.lor 0x1A4 S_IFREG.
Proof. split_and!; [vm_compute; reflexivity..|done]. Qed.

(** ** The reference host meets the contract *)

Lemma append_empty_r (s : string) : (s +:+ "")%string = s.
Proof.
  induction s as [|c s IH]; [done|].
  change (String c (s +:+ "") = String c s). by rewrite IH.
Qed.

Lemma substring_whole (s : string) (n : nat) :
  (String.length s ≤ n)%nat → substring 0 n s = s.
Proof.
  revert n. induction s as [|c s IH]; intros [|n] Hn; simpl in *; try done; try lia.
  rewrite IH; [done|lia].
Qed.

Lemma substring_past_empty (n : nat) : substring n 0 "" = "".
Proof. by destruct n. Qed.

Lemma ref_lookup_regular (h : RefHost.t) (path data : string) :
  RefHost.lookup h path = Some (host_regular data) ↔
  RefHost.entries h !! path = Some (RefHost.Reg data).
Proof.
  unfold RefHost.lookup.
  destruct (RefHost.entries h !! path) as [[]|]; split; intros; by simplify_eq.
Qed.

Lemma ref_errno_table_negative (e : Z) : RefHost.errno_table e < 0.
Proof. unfold RefHost.errno_table. destruct (0 <? e) eqn:E; lia. Qed.

Lemma ref_openat_excl_exists (h : RefHost.t) (path : string) (mode : Z) :
  is_Some (RefHost.lookup h path) →
  ∃ h', RefHost.openat path (Z.lor (Z.lor O_WRONLY O_CREAT) O_EXCL) mode h
        = (SysErr EEXIST, h').
Proof.
  unfold RefHost.lookup, RefHost.openat. intros [e He].
  destruct (RefHost.entries h !! path); [|done]. simpl. eauto.
Qed.

Lemma ref_open_leaves_entry (h : RefHost.t) (path : string) (flags mode : Z)
    (f : fd) (h' : RefHost.t) :
  RefHost.realfs_open path flags mode h = (inr f, h') →
  is_Some (RefHost.lookup h' (RefHost.fix_path path)).
Proof.
  unfold RefHost.realfs_open, RefHost.openat, RefHost.lookup.
  destruct (RefHost.entries h !! RefHost.fix_path path) as [n|] eqn:He; simpl.
  - destruct (negb _ && negb _); [done|]. intros [= <- <-]. simpl. rewrite He.
    by destruct n.
  - destruct (Z.land flags O_CREAT =? 0); [done|].
    destruct (RefHost.read_only h); [done|]. intros [= <- <-]. simpl.
    by rewrite lookup_insert_eq.
Qed.

Lemma ref_create_write_close (h : RefHost.t) (path : string) (mode fd : Z)
    (h1 : RefHost.t) (data : string) (n : Z) (h2 : RefHost.t) (r : sysres unit)
    (h3 : RefHost.t) :
  RefHost.openat path (Z.lor (Z.lor O_WRONLY O_CREAT) O_EXCL) mode h = (SysOk fd, h1) →
  RefHost.write fd data h1 = (SysOk n, h2) →
  RefHost.close fd h2 = (r, h3) →
  RefHost.lookup h3 path = Some (host_regular (substring 0 (Z.to_nat n) data)).
Proof.
  unfold RefHost.openat. destruct (RefHost.entries h !! path); simpl; [done|].
  destruct (RefHost.read_only h) eqn:Hro; [done|]. intros [= <- <-].
  unfold RefHost.write. simpl. rewrite !lookup_insert_eq.
  intros [= <- <-]. unfold RefHost.close. simpl. rewrite lookup_insert_eq.
  intros [= <- <-]. apply ref_lookup_regular. simpl.
  rewrite lookup_insert_eq. do 2 f_equal.
  rewrite Nat2Z.id, substring_whole by done.
  change (data +:+ substring (String.length data) 0 "" = data).
  by rewrite substring_past_empty, append_empty_r.
Qed.

Lemma ref_readlink_regular (h : RefHost.t) (path : string) (bufsize : Z) (data : string) :
  RefHost.lookup h (RefHost.fix_path path) = Some (host_regular data) →
  ∃ buf h', RefHost.realfs_readlink path bufsize h = ((_EINVAL, buf), h') ∧
            RefHost.lookup h' (RefHost.fix_path path) = Some (host_regular data).
Proof.
  intros Hl. unfold RefHost.realfs_readlink.
  rewrite (proj1 (ref_lookup_regular _ _ _) Hl). eauto.
Qed.

Lemma ref_open_read_regular (h : RefHost.t) (path : string) (bufsize : Z) (data : string) :
  RefHost.lookup h path = Some (host_regular data) →
  Z.of_nat (String.length data) ≤ bufsize →
  ∃ fd h1 h2, RefHost.openat path O_RDONLY 0 h = (SysOk fd, h1) ∧ 0 ≤ fd ∧
              RefHost.read fd bufsize h1 = (SysOk data, h2).
Proof.
  intros Hl%ref_lookup_regular Hlen. unfold RefHost.openat. rewrite Hl. simpl.
  eexists _, _, _. split; [done|]. split; [lia|].
  unfold RefHost.read. simpl. rewrite lookup_insert_eq, Hl.
  rewrite substring_whole by lia. done.
Qed.

Lemma ref_host_laws : host_laws RefHost.t.
Proof.
  exact {| host_lookup := RefHost.lookup;
           errno_table_negative := ref_errno_table_negative;
           openat_excl_exists := ref_openat_excl_exists;
           create_write_close := ref_create_write_close;
           readlink_regular := ref_readlink_regular;
           open_read_regular := ref_open_read_regular |}.
Defined.
Global Existing Instance ref_host_laws.

(** ** The theorems at concrete inputs *)

Lemma host_failure_rolls_back_witness :
  idle world_a ∧
  host_failure (v_mkdir "/a" 0x1ED) (host world_a) = Some (- EEXIST) ∧
  ∃ w', run_verb (v_mkdir "/a" 0x1ED) world_a = Ok (- EEXIST, w') ∧ db w' = db world_a.
Proof.
  split; [reflexivity|]. split; [reflexivity|].
  apply (host_failure_rolls_back (v_mkdir "/a" 0x1ED) world_a (- EEXIST)); reflexivity.
Defined.

(** The round trip, where the host's write counted the whole target. *)
Lemma symlink_readlink_roundtrip `{host_laws H} (target link : string)
    (bufsize : Z) (w w1 : world H) (fd : Z) (h1 h2 : H) :
  fakefs_symlink target link w = Ok (0, w1) →
  sys_openat (fix_path link) (Z.lor (Z.lor O_WRONLY O_CREAT) O_EXCL) perm_0666 (host w)
    = (SysOk fd, h1) →
  sys_write fd target h1 = (SysOk (Z.of_nat (String.length target)), h2) →
  Z.of_nat (String.length target) ≤ bufsize →
  Z.of_nat (String.length target) ≤ INT_MAX →
  ∃ w2, fakefs_readlink link bufsize w1
        = Ok ((Z.of_nat (String.length target), target), w2).
Proof.
  intros Hsym Hopen Hwrite Hbuf Hint.
  pose proof (symlink_readlink_written target link bufsize w w1 fd h1 _ h2
                Hsym Hopen Hwrite) as Hw.
  simpl in Hw. rewrite Nat2Z.id, substring_whole in Hw by done. by apply Hw.
Qed.

Example symlink_readlink_on_reference_host :
  fakefs_symlink "/nonexistent/target" "/s" world0 = Ok (0, world_s) ∧
  result_of (fakefs_readlink "/s" 4096) world_s = Some (19, "/nonexistent/target").
Proof. split; vm_compute; reflexivity. Qed.

(** C2. The round trip fails where the host's write is short, which
    write(2) allows and [fakefs_symlink] does not look for: it tests the
    count of [write] for an error only.  On a host that takes five bytes
    of the nineteen, [symlink] returns success and [readlink] returns the
    first five bytes of the target. *)
Theorem symlink_short_write_truncates :
  let symlink := @fakefs_symlink RefHost.t short_host_ops in
  let readlink := @fakefs_readlink RefHost.t short_host_ops in
  result_of (symlink "/nonexistent/target" "/s") world0 = Some 0 ∧
  result_of (readlink "/s" 4096)
    (state_after (symlink "/nonexistent/target" "/s") world0)
  = Some (5, "/none") ∧
  "/none" ≠ "/nonexistent/target".
Proof. split_and!; [vm_compute; reflexivity..|discriminate]. Qed.

Lemma fakefs_mknod_records_witness :
  fakefs_mknod "/dev/x" (Z.lor S_IFBLK 0x1B0) 0x801 world0 = Ok (0, world_x) ∧
  realfs_mknod "/dev/x" (Z.lor S_IFREG perm_0666) 0 (host world0) = (0, host world_x) ∧
  ∃ i, overlay (tab (db world_x)) "/dev/x"
       = Some (i, ishstat.mk (Z.lor S_IFBLK 0x1B0) 1000 100 0x801).
Proof.
  assert (fakefs_mknod "/dev/x" (Z.lor S_IFBLK 0x1B0) 0x801 world0 = Ok (0, world_x))
    as Hrun by (vm_compute; reflexivity).
  split; [exact Hrun|].
  destruct (fakefs_mknod_records "/dev/x" (Z.lor S_IFBLK 0x1B0) 0x801 0 world0 world_x
              Hrun ltac:(lia)) as (Hhost & Hov & _).
  split; [exact Hhost | exact Hov].
Defined.

Lemma setattr_uid_seen_through_links_witness :
  fakefs_link "/a" "/b" world_a = Ok (0, world_ab) ∧
  same_stat_record (tab (db world_ab)) "/a" "/b" ∧
  ∃ i st, overlay (tab (db (state_after (fakefs_setattr "/a" (attr_uid 0)) world_ab))) "/b"
          = Some (i, st) ∧ ishstat.uid st = 0.
Proof.
  assert (fakefs_link "/a" "/b" world_a = Ok (0, world_ab))
    as Hlink by (vm_compute; reflexivity).
  destruct (setattr_uid_seen_through_links (H := RefHost.t) "/a" "/b") as [Hshare Hset].
  pose proof (Hshare world_a world_ab Hlink) as Hsame.
  split; [exact Hlink|]. split; [exact Hsame|].
  destruct (Hset world_ab (state_after (fakefs_setattr "/a" (attr_uid 0)) world_ab) 0
              Hsame ltac:(vm_compute; reflexivity)) as [(i & st & _ & Hq & Hu) _].
  exists i, st. split; [exact Hq | exact Hu].
Defined.

Lemma fakefs_stat_projects_witness :
  idle world_a ∧
  fakefs_stat "/missing" statbuf0 true world_a = Ok ((_ENOENT, statbuf0), world_a) ∧
  ∃ out, fakefs_stat "/a" statbuf0 true world_a = Ok ((0, out), world_a) ∧
         statbuf.inode out = 1 ∧ statbuf.mode out = Z.lor S_IFREG 0x180 ∧
         statbuf.uid out = 1000 ∧ statbuf.gid out = 100 ∧ statbuf.size out = 0.
Proof.
  destruct (fakefs_stat_projects "/missing" statbuf0 true world_a eq_refl) as [Hnone _].
  destruct (fakefs_stat_projects "/a" statbuf0 true world_a eq_refl) as [_ Hsome].
  split; [reflexivity|]. split; [apply Hnone; vm_compute; reflexivity|].
  destruct (Hsome 1 (ishstat.mk (Z.lor S_IFREG 0x180) 1000 100 0) 0
              (RefHost.host_stat (RefHost.Reg "") statbuf0) (host world_a))
    as (out & Hrun & Hino & Hmode & Huid & Hgid & _ & _ & _ & Hsize & _);
    [vm_compute; reflexivity..|vm_compute; discriminate|].
  exists out. split; [exact Hrun|]. split; [exact Hino|]. split; [exact Hmode|].
  split; [exact Huid|]. split; [exact Hgid|exact Hsize].
Defined.

Lemma setattr_mode_keeps_file_type_witness :
  idle world_a ∧
  ∃ w' st', fakefs_setattr "/a" (attr_mode (Z.lor S_IFDIR 0x1ED)) world_a = Ok (0, w') ∧
            stats (tab (db w')) !! 1 = Some st' ∧
            Z.land (ishstat.mode st') S_IFMT = S_IFREG ∧
            Z.land (ishstat.mode st') (Z.lnot S_IFMT) = 0x1ED.
Proof.
  split; [reflexivity|].
  destruct (setattr_mode_keeps_file_type world_a 1
              (ishstat.mk (Z.lor S_IFREG 0x180) 1000 100 0) (Z.lor S_IFDIR 0x1ED)
              eq_refl ltac:(vm_compute; reflexivity)) as [Hpath _].
  destruct (Hpath "/a" ltac:(vm_compute; reflexivity))
    as (w' & Hrun & st' & Hst & Htype & Hperm & _).
  exists w', st'. split; [exact Hrun|]. split; [exact Hst|].
  split; [exact Htype | exact Hperm].
Defined.

Lemma unlink_removes_path_only_witness :
  let w' := state_after (fakefs_unlink "/a") world_ab in
  fakefs_unlink "/a" world_ab = Ok (0, w') ∧
  fakefs_stat "/a" statbuf0 true w' = Ok ((_ENOENT, statbuf0), w') ∧
  overlay (tab (db w')) "/b" = Some (1, ishstat.mk (Z.lor S_IFREG 0x180) 1000 100 0).
Proof.
  intros w'.
  assert (fakefs_unlink "/a" world_ab = Ok (0, w')) as Hrun by (vm_compute; reflexivity).
  destruct (unlink_removes_path_only "/a" world_ab w' Hrun) as (Hgone & _ & Hrest).
  split; [exact Hrun|]. split; [apply Hgone|].
  apply (Hrest "/b" 1 (ishstat.mk (Z.lor S_IFREG 0x180) 1000 100 0));
    [discriminate | vm_compute; reflexivity].
Defined.

Lemma fakefs_open_creat_new_path_witness :
  fakefs_open "/a" (Z.lor O_CREAT_ O_WRONLY) 0x180 world0 = Ok (inr (mk_fd 3 1), world_a) ∧
  host_lookup (host world0) (fix_path "/a") = None ∧
  is_Some (host_lookup (host world_a) (fix_path "/a")) ∧
  overlay (tab (db world_a)) "/a" = Some (1, ishstat.mk (Z.lor 0x180 S_IFREG) 1000 100 0).
Proof.
  assert (fakefs_open "/a" (Z.lor O_CREAT_ O_WRONLY) 0x180 world0
          = Ok (inr (mk_fd 3 1), world_a)) as Hrun by (vm_compute; reflexivity).
  destruct (@fakefs_open_creat_new_path RefHost.t ref_host_ops ref_host_laws "/a"
              (Z.lor O_CREAT_ O_WRONLY) 0x180
              world0 world_a (mk_fd 3 1) ref_open_leaves_entry
              ltac:(vm_compute; discriminate) Hrun)
    as (_ & Hex & Hnew & _).
  split; [exact Hrun|]. split; [reflexivity|]. split; [exact Hex|].
  exact (proj1 (Hnew ltac:(vm_compute; reflexivity))).
Defined.

Lemma created_stat_has_caller_credentials_witness :
  let owner (w : world RefHost.t) (path : string) :=
    (λ p, (ishstat.uid p.2, ishstat.gid p.2)) <$> overlay (tab (db w)) path in
  (fakefs_mkdir "/d" 0x1ED world0 = Ok (0, world_d) ∧
   owner world_d "/d" = Some (1000, 100)) ∧
  (fakefs_symlink "/nonexistent/target" "/s" world0 = Ok (0, world_s) ∧
   owner world_s "/s" = Some (1000, 100)) ∧
  (fakefs_mknod "/dev/x" (Z.lor S_IFBLK 0x1B0) 0x801 world0 = Ok (0, world_x) ∧
   owner world_x "/dev/x" = Some (1000, 100)).
Proof.
  intros owner.
  destruct (@created_stat_has_caller_credentials RefHost.t ref_host_ops
              ref_errno_table_negative) as (Hmkdir & Hsymlink & Hmknod).
  assert (fakefs_mkdir "/d" 0x1ED world0 = Ok (0, world_d))
    as Hd by (vm_compute; reflexivity).
  assert (fakefs_symlink "/nonexistent/target" "/s" world0 = Ok (0, world_s))
    as Hs by (vm_compute; reflexivity).
  assert (fakefs_mknod "/dev/x" (Z.lor S_IFBLK 0x1B0) 0x801 world0 = Ok (0, world_x))
    as Hx by (vm_compute; reflexivity).
  assert (∀ (w w' : world RefHost.t) path,
            current w = mk_task 1000 100 →
            (∃ i st, overlay (tab (db w')) path = Some (i, st) ∧
                     ishstat.uid st = euid (current w) ∧
                     ishstat.gid st = egid (current w)) →
            owner w' path = Some (1000, 100)) as Hown.
  { intros w w' path Hc (i & st & Hov & Hu & Hg). unfold owner.
    rewrite Hov, Hc in *. simpl in *. by rewrite Hu, Hg. }
  split; [|split].
  - split; [exact Hd|].
    exact (Hown world0 world_d "/d" eq_refl (Hmkdir "/d" 0x1ED world0 world_d Hd)).
  - split; [exact Hs|].
    exact (Hown world0 world_s "/s" eq_refl
             (Hsymlink "/nonexistent/target" "/s" world0 world_s Hs)).
  - split; [exact Hx|].
    exact (Hown world0 world_x "/dev/x" eq_refl
             (Hmknod "/dev/x" (Z.lor S_IFBLK 0x1B0) 0x801 0 world0 world_x Hx
                ltac:(lia))).
Defined.

Lemma fakefs_symlink_existing_entry_witness :
  idle world_a ∧ is_Some (host_lookup (host world_a) (fix_path "/a")) ∧
  ∃ w', fakefs_symlink "/etc/passwd" "/a" world_a = Ok (- EEXIST, w') ∧
        db w' = db world_a.
Proof.
  split; [reflexivity|].
  assert (is_Some (host_lookup (host world_a) (fix_path "/a"))) as Hex
    by (exists (host_regular ""); vm_compute; reflexivity).
  split; [exact Hex|].
  apply (fakefs_symlink_existing_entry "/etc/passwd" "/a" world_a eq_refl Hex).
Defined.

(** ** Scenarios on the reference host *)

(** Create, then stat: mode [0100644], the caller's uid and gid, rdev 0. *)
Example scenario_create_stat :
  let w := state_after (fakefs_open "/a" (Z.lor O_CREAT_ O_WRONLY) 0x1A4) world0 in
  (λ r, (r.1, statbuf.mode r.2, statbuf.uid r.2, statbuf.gid r.2, statbuf.rdev r.2))
    <$> result_of (fakefs_stat "/a" statbuf0 true) w
  = Some (0, 0x81A4, 1000, 100, 0).
Proof. vm_compute. reflexivity. Qed.

(** A mode set through one name of a hard link shows through the other. *)
Example scenario_hard_link_mode :
  let w := state_after (fakefs_setattr "/b" (attr_mode 0x180))
             (state_after (fakefs_link "/a" "/b")
                (state_after (fakefs_open "/a" (Z.lor O_CREAT_ O_WRONLY) 0x1A4) world0)) in
  (λ r, (r.1, statbuf.mode r.2)) <$> result_of (fakefs_stat "/a" statbuf0 true) w
  = Some (0, 0x8180).
Proof. vm_compute. reflexivity. Qed.

(** Renaming onto an existing name: the old name is gone and the new name
    has the inode of the old one. *)
Example scenario_rename_replace :
  let w := state_after (fakefs_rename "/a" "/b")
             (state_after (fakefs_open "/b" (Z.lor O_CREAT_ O_WRONLY) 0x1A4) world_a) in
  (λ r, r.1) <$> result_of (fakefs_stat "/a" statbuf0 true) w = Some _ENOENT ∧
  (λ r, (r.1, statbuf.inode r.2)) <$> result_of (fakefs_stat "/b" statbuf0 true) w
  = Some (0, 1).
Proof. split; vm_compute; reflexivity. Qed.

(** A block special: the overlay reports the device, the host has a
    regular file. *)
Example scenario_block_device :
  (λ r, (r.1, Z.land (statbuf.mode r.2) S_IFMT, statbuf.rdev r.2))
    <$> result_of (fakefs_stat "/dev/x" statbuf0 true) world_x
  = Some (0, S_IFBLK, 0x801) ∧
  (λ r, Z.land (statbuf.mode r.1.2) S_IFMT)
    (realfs_stat "/dev/x" statbuf0 true (host world_x)) = S_IFREG.
Proof. split; vm_compute; reflexivity. Qed.

(** [readlink] of a path that is not a symbolic link, and of no path. *)
Example scenario_readlink_errors :
  (λ r, r.1) <$> result_of (fakefs_readlink "/a" 64) world_a = Some _EINVAL ∧
  (λ r, r.1) <$> result_of (fakefs_readlink "/nowhere" 64) world_a = Some _ENOENT.
Proof. split; vm_compute; reflexivity. Qed.

(** ** The rows a verb touches *)

(** Taking a verb apart: every match on a host answer or a lookup is
    split, and each leaf is a returned world. *)
Ltac split_run :=
  unfold path_create, path_create_stat, path_create_path, path_link,
    path_unlink, path_rename, path_get_inode, path_read_stat,
    inode_read_stat, inode_write_stat, file_readlink in *;
  unfold_monad;
  repeat (case_match; simpl in *; simplify_eq).

Section effects.
Context {H : Type} `{!host_ops H}.

Lemma apply_create (t : tables) (path : string) (st : ish_stat) :
  (INT64_MAX <? Z.max (seq t) (max_rowid (stats t)) + 1) = false →
  paths t !! path = None →
  apply_row_op (row_create path st) t
  = Some (mk_tables (<[path := Z.max (seq t) (max_rowid (stats t)) + 1]> (paths t))
            (<[Z.max (seq t) (max_rowid (stats t)) + 1 := st]> (stats t))
            (Z.max (seq t) (max_rowid (stats t)) + 1)).
Proof. simpl. by intros -> ->. Qed.

Ltac effect_none :=
  simpl in *; split_and!; [done..|]; exists row_none; split; [by left|done].
Ltac effect_create path tac :=
  simpl in *; split_and!; [done..|]; eexists (row_create path _); split;
  [tac|by apply apply_create].

Lemma open_effect (path : string) (flags mode : Z) (w w' : world H) r :
  fakefs_open path flags mode w = Ok (r, w') →
  saved (db w') = saved (db w) ∧ current w' = current w ∧
  ∃ o, may_perform (c_open path flags mode) o ∧
       apply_row_op o (tab (db w)) = Some (tab (db w')).
Proof.
  intros Hrun. unfold fakefs_open in Hrun. split_run.
  all: try effect_none.
  all: effect_create path
         ltac:(right; split;
               [match goal with
                | Hc : negb (_ =? 0) = true |- _ =>
                    by apply negb_true_iff, Z.eqb_neq in Hc
                end | eauto]).
Qed.

Ltac effect_with o :=
  simpl in *; split_and!; [done..|]; exists o; split;
  [right; eauto|simpl; repeat (case_match; simplify_eq); try done; congruence].

Lemma link_effect (src dst : string) (w w' : world H) r :
  fakefs_link src dst w = Ok (r, w') →
  saved (db w') = saved (db w) ∧ current w' = current w ∧
  ∃ o, may_perform (c_link src dst) o ∧
       apply_row_op o (tab (db w)) = Some (tab (db w')).
Proof.
  intros Hrun. unfold fakefs_link in Hrun. split_run.
  all: try effect_none.
  simpl in *. destruct (paths (tab (db w)) !! src) as [i|] eqn:Hs; simpl in *; [|done].
  effect_with (row_link src dst).
Qed.

Lemma unlink_effect (path : string) (w w' : world H) r :
  fakefs_unlink path w = Ok (r, w') →
  saved (db w') = saved (db w) ∧ current w' = current w ∧
  ∃ o, may_perform (c_unlink path) o ∧
       apply_row_op o (tab (db w)) = Some (tab (db w')).
Proof.
  intros Hrun. unfold fakefs_unlink in Hrun. split_run.
  all: try effect_none. effect_with (row_unlink path).
Qed.

Lemma rmdir_effect (path : string) (w w' : world H) r :
  fakefs_rmdir path w = Ok (r, w') →
  saved (db w') = saved (db w) ∧ current w' = current w ∧
  ∃ o, may_perform (c_rmdir path) o ∧
       apply_row_op o (tab (db w)) = Some (tab (db w')).
Proof.
  intros Hrun. unfold fakefs_rmdir in Hrun. split_run.
  all: try effect_none. effect_with (row_unlink path).
Qed.

Lemma rename_effect (src dst : string) (w w' : world H) r :
  fakefs_rename src dst w = Ok (r, w') →
  saved (db w') = saved (db w) ∧ current w' = current w ∧
  ∃ o, may_perform (c_rename src dst) o ∧
       apply_row_op o (tab (db w)) = Some (tab (db w')).
Proof.
  intros Hrun. unfold fakefs_rename in Hrun. split_run.
  all: try effect_none. all: effect_with (row_rename src dst).
Qed.

Lemma symlink_effect (target link : string) (w w' : world H) r :
  fakefs_symlink target link w = Ok (r, w') →
  saved (db w') = saved (db w) ∧ current w' = current w ∧
  ∃ o, may_perform (c_symlink target link) o ∧
       apply_row_op o (tab (db w)) = Some (tab (db w')).
Proof.
  intros Hrun. unfold fakefs_symlink in Hrun. split_run.
  all: try effect_none. all: effect_create link ltac:(right; eauto).
Qed.

Lemma mknod_effect (path : string) (mode dev : Z) (w w' : world H) r :
  fakefs_mknod path mode dev w = Ok (r, w') →
  saved (db w') = saved (db w) ∧ current w' = current w ∧
  ∃ o, may_perform (c_mknod path mode dev) o ∧
       apply_row_op o (tab (db w)) = Some (tab (db w')).
Proof.
  intros Hrun. unfold fakefs_mknod in Hrun. split_run.
  all: try effect_none. all: effect_create path ltac:(right; eauto).
Qed.

Lemma mkdir_effect (path : string) (mode : Z) (w w' : world H) r :
  fakefs_mkdir path mode w = Ok (r, w') →
  saved (db w') = saved (db w) ∧ current w' = current w ∧
  ∃ o, may_perform (c_mkdir path mode) o ∧
       apply_row_op o (tab (db w)) = Some (tab (db w')).
Proof.
  intros Hrun. unfold fakefs_mkdir in Hrun. split_run.
  all: try effect_none. all: effect_create path ltac:(right; eauto).
Qed.

(** The verbs that only read: the whole connection is as before. *)
Lemma stat_reads (path : string) (buf : statbuf.t) (follow : bool) (w w' : world H) r :
  fakefs_stat path buf follow w = Ok (r, w') → db w' = db w ∧ current w' = current w.
Proof.
  intros Hrun. unfold fakefs_stat in Hrun. split_run.
  all: simpl in *; simplify_eq; split; [by apply database_eta|done].
Qed.

Lemma fstat_reads (f : fd) (buf : statbuf.t) (w w' : world H) r :
  fakefs_fstat f buf w = Ok (r, w') → db w' = db w ∧ current w' = current w.
Proof.
  intros Hrun. unfold fakefs_fstat in Hrun. split_run.
  all: simpl in *; simplify_eq; first [done|split; [by apply database_eta|done]].
Qed.

Lemma readlink_reads (path : string) (bufsize : Z) (w w' : world H) r :
  fakefs_readlink path bufsize w = Ok (r, w') → db w' = db w ∧ current w' = current w.
Proof.
  intros Hrun. unfold fakefs_readlink in Hrun. split_run.
  all: simpl in *; simplify_eq; split; [by apply database_eta|done].
Qed.

Lemma setattr_effect (path : string) (a : attr) (w w' : world H) r :
  fakefs_setattr path a w = Ok (r, w') →
  saved (db w') = saved (db w) ∧ current w' = current w ∧
  ∃ o, may_perform (c_setattr path a) o ∧
       apply_row_op o (tab (db w)) = Some (tab (db w')).
Proof.
  intros Hrun. destruct a; unfold fakefs_setattr in Hrun; split_run.
  all: try effect_none.
  all: simpl in *; split_and!; [done..|]; eexists (row_write _ _); split;
    [right; eauto|simpl; by simplify_option_eq].
Qed.

Lemma fsetattr_effect (f : fd) (a : attr) (w w' : world H) r :
  fakefs_fsetattr f a w = Ok (r, w') →
  saved (db w') = saved (db w) ∧ current w' = current w ∧
  ∃ o, may_perform (c_fsetattr f a) o ∧
       apply_row_op o (tab (db w)) = Some (tab (db w')).
Proof.
  intros Hrun. destruct a; unfold fakefs_fsetattr in Hrun; split_run.
  all: try effect_none.
  all: simpl in *; split_and!; [done..|]; eexists (row_write _ _); split;
    [right; eauto|simpl; by simplify_option_eq].
Qed.

End effects.

(** ** Invariants of the store *)

Lemma max_rowid_bounds {A} (m : gmap Z A) :
  0 ≤ max_rowid m ∧ ∀ k, is_Some (m !! k) → k ≤ max_rowid m.
Proof.
  unfold max_rowid.
  apply (map_fold_weak_ind (λ r (m : gmap Z A), 0 ≤ r ∧ ∀ k, is_Some (m !! k) → k ≤ r)).
  - split; [done|]. intros k [x Hx]. by rewrite lookup_empty in Hx.
  - intros i x m' r _ [Hr Hk]. split; [lia|]. intros k.
    rewrite lookup_insert_is_Some. intros [->|[_ Hs]]; [lia|].
    specialize (Hk k Hs). lia.
Qed.

(** The key [path_create] gives to a new Stat record is positive and above
    every key in use. *)
Lemma fresh_rowid (t : tables) :
  let rowid := Z.max (seq t) (max_rowid (stats t)) + 1 in
  0 < rowid ∧ seq t < rowid ∧ stats t !! rowid = None.
Proof.
  intros rowid. destruct (max_rowid_bounds (stats t)) as [H0 Hk].
  split_and!; [lia..|].
  destruct (stats t !! rowid) eqn:E; [|done].
  assert (rowid ≤ max_rowid (stats t)) by (apply Hk; eauto). lia.
Qed.

Lemma store_ok_lookup (t : tables) :
  store_ok t ↔ ∀ path i, paths t !! path = Some i → i ≠ 0 ∧ is_Some (stats t !! i).
Proof. apply map_Forall_lookup. Qed.

Lemma row_op_keeps_store_ok (o : row_op) (t t' : tables) :
  apply_row_op o t = Some t' → store_ok t → store_ok t'.
Proof.
  rewrite !store_ok_lookup. intros Hop Hok.
  destruct o as [|path st|src dst|path|src dst|i st]; simpl in Hop.
  - by simplify_eq.
  - destruct (fresh_rowid t) as (Hpos & _ & _).
    repeat (case_match; simplify_eq). simpl. intros q i.
    rewrite lookup_insert. case_decide.
    + intros [= <-]. split; [lia|]. rewrite lookup_insert_eq. eauto.
    + intros [Hi Hs]%Hok. split; [done|]. rewrite lookup_insert_is_Some'. tauto.
  - repeat (case_match; simplify_eq). simpl. intros q i.
    rewrite lookup_insert. case_decide; [intros [= <-]|]; eauto.
  - simplify_eq. simpl. intros q i [_ Hq]%lookup_delete_Some. eauto.
  - case_match; simplify_eq; [|done]. simpl. intros q i.
    rewrite lookup_insert. case_decide; [intros [= <-]; eauto|].
    intros [_ Hq]%lookup_delete_Some. eauto.
  - case_match; simplify_eq; [|done]. simpl. intros q j [Hj Hs]%Hok.
    split; [done|]. rewrite lookup_insert_is_Some'. tauto.
Qed.

Lemma row_op_keeps_stats (o : row_op) (t t' : tables) :
  apply_row_op o t = Some t' →
  seq t ≤ seq t' ∧ ∀ i, is_Some (stats t !! i) → is_Some (stats t' !! i).
Proof.
  intros Hop.
  destruct o as [|path st|src dst|path|src dst|i st]; simpl in Hop;
    repeat case_match; simplify_eq; simpl; try done.
  - destruct (fresh_rowid t) as (_ & Hseq & _). simpl in *. split; [lia|].
    intros i. rewrite lookup_insert_is_Some'. tauto.
  - split; [done|]. intros j. rewrite lookup_insert_is_Some'. tauto.
Qed.

(** A record pair is kept by the row operations that add a name. *)
Lemma row_op_keeps_pairs (o : row_op) (t t' : tables) (q : string) (i : Z)
    (st : ish_stat) :
  match o with row_none | row_create _ _ | row_link _ _ => True | _ => False end →
  apply_row_op o t = Some t' →
  overlay t q = Some (i, st) → overlay t' q = Some (i, st).
Proof.
  intros Ho Hop [Hq Hs]%overlay_Some. apply overlay_Some.
  destruct o as [|path st'|src dst| | |]; try done; simpl in Hop;
    repeat case_match; simplify_eq; simpl; try done.
  - destruct (fresh_rowid t) as (_ & _ & Hfresh).
    rewrite !lookup_insert_ne; [done|congruence..].
  - rewrite lookup_insert_ne; [done|congruence].
Qed.

Section invariants.
Context {H : Type} `{!host_ops H}.

Lemma call_effect (c : call) (w w' : world H) :
  returns_to c w w' →
  saved (db w') = saved (db w) ∧ current w' = current w ∧
  ∃ o, may_perform c o ∧ apply_row_op o (tab (db w)) = Some (tab (db w')).
Proof.
  assert (∀ w w' : world H, db w' = db w ∧ current w' = current w →
    saved (db w') = saved (db w) ∧ current w' = current w ∧
    ∃ o, o = row_none ∧ apply_row_op o (tab (db w)) = Some (tab (db w'))) as Hread.
  { intros ?? [-> ->]. split_and!; try done. by exists row_none. }
  destruct c; simpl; intros [r Hrun];
    eauto using open_effect, link_effect, unlink_effect, rmdir_effect,
      rename_effect, symlink_effect, mknod_effect, mkdir_effect,
      setattr_effect, fsetattr_effect.
  - apply stat_reads, Hread in Hrun as (? & ? & o & -> & ?).
    split_and!; try done. exists row_none. split; [by left|done].
  - apply fstat_reads, Hread in Hrun as (? & ? & o & -> & ?).
    split_and!; try done. exists row_none. split; [by left|done].
  - apply readlink_reads, Hread in Hrun as (? & ? & o & -> & ?).
    split_and!; try done. exists row_none. split; [by left|done].
Qed.

End invariants.

(** X1. Every verb keeps the store consistent: if each Path record has a
    non-zero inode number and references a Stat record before a call that
    returns, the same holds after it. *)
Theorem verbs_keep_store_ok `{host_ops H} (c : call) (w w' : world H) :
  returns_to c w w' → store_ok (tab (db w)) → store_ok (tab (db w')).
Proof.
  intros (_ & _ & o & _ & Hop)%call_effect. by apply row_op_keeps_store_ok with o.
Qed.

(** X2. A verb that returns has ended the transaction it began, by commit
    or by rollback: the transaction state after the call is the one before
    it, so an idle store stays idle; and the calling task is as it was. *)
Theorem verbs_end_their_transaction `{host_ops H} (c : call) (w w' : world H) :
  returns_to c w w' →
  saved (db w') = saved (db w) ∧ (idle w → idle w') ∧ current w' = current w.
Proof.
  intros (Hs & Hc & _)%call_effect. unfold idle. rewrite Hs. done.
Qed.

(** X3. No verb deletes a Stat record, and the AUTOINCREMENT counter never
    goes down: inode numbers are not handed out twice. *)
Theorem verbs_never_delete_stats `{host_ops H} (c : call) (w w' : world H) :
  returns_to c w w' →
  seq (tab (db w)) ≤ seq (tab (db w')) ∧
  ∀ i, is_Some (stats (tab (db w)) !! i) → is_Some (stats (tab (db w')) !! i).
Proof.
  intros (_ & _ & o & _ & Hop)%call_effect. by apply row_op_keeps_stats with o.
Qed.

(** X4. [stat], [fstat] and [readlink] never change the store: whatever
    the host answers, relations, counter and transaction state are the
    ones before the call. *)
Theorem read_verbs_leave_store `{host_ops H} (c : call) (w w' : world H) :
  match c with c_stat _ _ _ | c_fstat _ _ | c_readlink _ _ => True | _ => False end →
  returns_to c w w' → db w' = db w.
Proof.
  destruct c; try done; intros _ [r Hrun].
  - by apply stat_reads in Hrun as [? _].
  - by apply fstat_reads in Hrun as [? _].
  - by apply readlink_reads in Hrun as [? _].
Qed.

(** X5. The verbs that add a name ([open], [link], [symlink], [mknod],
    [mkdir]) leave every record pair that was there in place: the new
    Stat record gets a key that no Stat record has, so no other path sees
    its attributes change. *)
Theorem adding_verbs_keep_other_records `{host_ops H} (c : call) (w w' : world H)
    (q : string) (i : Z) (st : ish_stat) :
  match c with
  | c_open _ _ _ | c_link _ _ | c_symlink _ _ | c_mknod _ _ _ | c_mkdir _ _ => True
  | _ => False
  end →
  returns_to c w w' →
  overlay (tab (db w)) q = Some (i, st) → overlay (tab (db w')) q = Some (i, st).
Proof.
  intros Hc (_ & _ & o & Ho & Hop)%call_effect. apply row_op_keeps_pairs with o; [|done].
  destruct Ho as [->|Ho]; [done|].
  destruct c; try done; simpl in Ho.
  - by destruct Ho as (_ & ? & ->).
  - by subst.
  - by destruct Ho as (? & ->).
  - by destruct Ho as (? & ->).
  - by destruct Ho as (? & ->).
Qed.

(** ** Renaming and removing *)

Section renaming.
Context {H : Type} `{!host_ops H}.

Lemma fakefs_rename_inv (src dst : string) (w w' : world H) (r : Z) :
  fakefs_rename src dst w = Ok (r, w') → 0 ≤ r →
  ∃ err, realfs_rename src dst (host w) = (err, host w') ∧ 0 ≤ err ∧ r = 0 ∧
    apply_row_op (row_rename src dst) (tab (db w)) = Some (tab (db w')).
Proof.
  intros Hrun Hr. unfold fakefs_rename in Hrun. split_run; simpl in *; try lia.
  all: eexists; split_and!; try done; try lia.
  all: by simplify_option_eq.
Qed.

Lemma fakefs_rmdir_inv (path : string) (w w' : world H) (r : Z) :
  fakefs_rmdir path w = Ok (r, w') → 0 ≤ r →
  ∃ err, realfs_rmdir path (host w) = (err, host w') ∧ 0 ≤ err ∧ r = 0 ∧
    tab (db w') = mk_tables (delete path (paths (tab (db w))))
                    (stats (tab (db w))) (seq (tab (db w))) ∧
    idle w'.
Proof.
  intros Hrun Hr. unfold fakefs_rmdir in Hrun. split_run; simpl in *; try lia.
  eexists; split_and!; try done; lia.
Qed.

End renaming.

(** X6. A [rename] that succeeds moves the Path record of [src] to [dst],
    replacing a record [dst] had: [dst] then has the inode of [src], [src]
    has no record, every other Path record (those of paths below [src]
    included) stays under its name, and no Stat record changes. *)
Theorem fakefs_rename_moves_record `{host_ops H} (src dst : string) (i : Z)
    (w w' : world H) :
  fakefs_rename src dst w = Ok (0, w') →
  paths (tab (db w)) !! src = Some i →
  paths (tab (db w')) !! dst = Some i ∧
  (src ≠ dst → paths (tab (db w')) !! src = None) ∧
  (∀ q, q ≠ src → q ≠ dst → paths (tab (db w')) !! q = paths (tab (db w)) !! q) ∧
  stats (tab (db w')) = stats (tab (db w)).
Proof.
  intros (err & _ & _ & _ & Hop)%fakefs_rename_inv Hsrc; [|done].
  simpl in Hop. rewrite Hsrc in Hop. injection Hop as <-. simpl. split_and!.
  - apply lookup_insert_eq.
  - intros Hne. rewrite lookup_insert_ne by done. apply lookup_delete_eq.
  - intros q Hs Hd. rewrite lookup_insert_ne by done. by apply lookup_delete_ne.
  - done.
Qed.

(** X7. A [rename] of a path without a Path record returns success once
    the host has renamed, and leaves the store as it was: a record of [dst]
    is kept although the host entry it described is replaced. *)
Theorem fakefs_rename_without_record `{host_ops H} (src dst : string)
    (w : world H) (err : Z) (h' : H) :
  idle w → realfs_rename src dst (host w) = (err, h') → 0 ≤ err →
  paths (tab (db w)) !! src = None →
  fakefs_rename src dst w = Ok (0, with_host w h').
Proof.
  intros Hi Hhost Herr Hsrc. unfold fakefs_rename, path_rename. unfold_monad.
  rewrite Hi. simpl. rewrite Hhost. simpl.
  assert ((err <? 0) = false) as -> by lia. simpl. rewrite Hsrc. simpl.
  by rewrite database_eta.
Qed.

(** X8. After an [rmdir] that succeeds, [stat] of the path is not found;
    the Stat record stays, and so does every other Path record, those of
    paths below the directory included. *)
Theorem fakefs_rmdir_removes_path_only `{host_ops H} (path : string) (w w' : world H) :
  fakefs_rmdir path w = Ok (0, w') →
  (∀ buf follow_links,
     fakefs_stat path buf follow_links w' = Ok ((_ENOENT, buf), w')) ∧
  stats (tab (db w')) = stats (tab (db w)) ∧
  (∀ q, q ≠ path → paths (tab (db w')) !! q = paths (tab (db w)) !! q).
Proof.
  intros (err & _ & _ & _ & Htab & Hi')%fakefs_rmdir_inv; [|done]. split_and!.
  - intros buf follow. rewrite fakefs_stat_eq by done.
    unfold overlay. rewrite Htab. simpl. by rewrite lookup_delete_eq.
  - by rewrite Htab.
  - intros q Hq. rewrite Htab. simpl. by apply lookup_delete_ne.
Qed.

(** ** Descriptors *)

Section descriptors.
Context {H : Type} `{!host_ops H}.

(** [fakefs_fstat] in closed form. *)
Lemma fakefs_fstat_eq (f : fd) (buf : statbuf.t) (w : world H) :
  idle w →
  fakefs_fstat f buf w =
  let '((err, hb), h') := realfs_fstat f buf (host w) in
  if err <? 0 then Ok ((err, hb), with_host w h')
  else match stats (tab (db w)) !! fake_inode f with
       | Some st => Ok ((0, project (fake_inode f) st hb), with_host w h')
       | None => Died "inode_read_stat: missing inode"
       end.
Proof.
  intros Hi. unfold fakefs_fstat, inode_read_stat. unfold_monad.
  destruct (realfs_fstat f buf (host w)) as [[err hb] h']. simpl.
  destruct (err <? 0); [done|]. simpl. rewrite Hi. simpl.
  destruct (stats (tab (db w)) !! fake_inode f); simpl; [|done].
  by rewrite database_eta.
Qed.

End descriptors.

(** X9. [fstat] asks the host first and returns its error untouched; when
    the host's fstat succeeds, the buffer gets inode, mode, uid, gid and
    rdev of the Stat record with the descriptor's inode number, found by
    inode and not by path; and when there is no such record the process is
    aborted. *)
Theorem fakefs_fstat_projects `{host_ops H} (f : fd) (buf : statbuf.t) (w : world H)
    (err : Z) (hb : statbuf.t) (h' : H) :
  idle w → realfs_fstat f buf (host w) = ((err, hb), h') →
  (err < 0 → fakefs_fstat f buf w = Ok ((err, hb), with_host w h')) ∧
  (0 ≤ err → ∀ st, stats (tab (db w)) !! fake_inode f = Some st →
     fakefs_fstat f buf w = Ok ((0, project (fake_inode f) st hb), with_host w h')) ∧
  (0 ≤ err → stats (tab (db w)) !! fake_inode f = None →
     ∃ msg, fakefs_fstat f buf w = Died msg).
Proof.
  intros Hi Hhost. rewrite fakefs_fstat_eq by done. rewrite Hhost. split_and!.
  - intros He. destruct (err <? 0) eqn:E; [done|lia].
  - intros He st ->. destruct (err <? 0) eqn:E; [lia|done].
  - intros He ->. destruct (err <? 0) eqn:E; [lia|eauto].
Qed.

(** X10. A descriptor outlives its name: after an [unlink] of a path that
    succeeds, [fstat] on a descriptor whose Stat record existed before
    still reports that record, the Stat record not being deleted with the
    Path record. *)
Theorem fakefs_fstat_after_unlink `{host_ops H} (path : string) (f : fd)
    (st : ish_stat) (buf : statbuf.t) (w w' : world H) (err : Z) (hb : statbuf.t)
    (h' : H) :
  fakefs_unlink path w = Ok (0, w') →
  stats (tab (db w)) !! fake_inode f = Some st →
  realfs_fstat f buf (host w') = ((err, hb), h') → 0 ≤ err →
  fakefs_fstat f buf w' = Ok ((0, project (fake_inode f) st hb), with_host w' h').
Proof.
  intros (e & _ & _ & _ & _ & Htab & Hi' & _)%fakefs_unlink_inv Hst Hhost Herr; [|done].
  rewrite fakefs_fstat_eq by done. rewrite Hhost, Htab. simpl. rewrite Hst.
  destruct (err <? 0) eqn:E; [lia|done].
Qed.

(** ** Opening *)

Section opening.
Context {H : Type} `{!host_ops H}.

(** [open] of a path that has a Path record, with or without [O_CREAT_]. *)
Lemma fakefs_open_existing (path : string) (flags mode i : Z) (w : world H)
    (hfd : fd) (h1 : H) :
  idle w → paths (tab (db w)) !! path = Some i → i ≠ 0 →
  realfs_open path flags perm_0666 (host w) = (inr hfd, h1) →
  fakefs_open path flags mode w = Ok (inr (mk_fd (real_fd hfd) i), with_host w h1).
Proof.
  intros Hi Hp Hi0 Hhost. unfold fakefs_open, path_get_inode. unfold_monad.
  rewrite Hhost. simpl. rewrite Hi. simpl. rewrite Hp. simpl.
  assert ((i =? 0) = false) as Hz by lia.
  destruct (negb (Z.land flags O_CREAT_ =? 0)); simpl; rewrite ?Hz; simpl;
    rewrite ?Hz; by rewrite database_eta.
Qed.

End opening.

(** X11. [open] returns an error of the host's open as it is, without a
    transaction.  Without [O_CREAT_], a host file that opens but has no
    Path record is not found: the descriptor is closed again, the store is
    as before, and the host file is left where it is. *)
Theorem fakefs_open_without_record `{host_ops H} (path : string) (flags mode : Z)
    (w : world H) :
  (∀ err h1, realfs_open path flags perm_0666 (host w) = (inl err, h1) →
     fakefs_open path flags mode w = Ok (inl err, with_host w h1)) ∧
  (idle w → Z.land flags O_CREAT_ = 0 → paths (tab (db w)) !! path = None →
   ∀ hfd h1 e h2,
     realfs_open path flags perm_0666 (host w) = (inr hfd, h1) →
     fd_close (mk_fd (real_fd hfd) 0) h1 = (e, h2) →
     fakefs_open path flags mode w = Ok (inl _ENOENT, with_host w h2)).
Proof.
  split.
  - intros err h1 Hhost. unfold fakefs_open. unfold_monad. by rewrite Hhost.
  - intros Hi Hfl Hp hfd h1 e h2 Hhost Hclose.
    unfold fakefs_open, path_get_inode. unfold_monad.
    rewrite Hhost. simpl. rewrite Hi. simpl. rewrite Hp, Hfl. simpl.
    rewrite Hclose. simpl. by rewrite database_eta.
Qed.

(** X12. [open] of a path that has a Path record, with or without
    [O_CREAT_], returns a descriptor that carries the inode number of the
    path and changes nothing in the store; [fstat] through the descriptor
    and [stat] of the path then report the same inode, mode, uid, gid and
    rdev. *)
Theorem fakefs_open_then_fstat `{host_ops H} (path : string) (flags mode i : Z)
    (st : ish_stat) (w : world H) (hfd : fd) (h1 : H) :
  idle w → overlay (tab (db w)) path = Some (i, st) → i ≠ 0 →
  realfs_open path flags perm_0666 (host w) = (inr hfd, h1) →
  let f := mk_fd (real_fd hfd) i in
  let w1 := with_host w h1 in
  fakefs_open path flags mode w = Ok (inr f, w1) ∧ db w1 = db w ∧
  (∀ buf err hb h2,
     realfs_fstat f buf h1 = ((err, hb), h2) → 0 ≤ err →
     fakefs_fstat f buf w1 = Ok ((0, project i st hb), with_host w1 h2)) ∧
  (∀ buf follow_links err hb h2,
     realfs_stat path buf follow_links h1 = ((err, hb), h2) → 0 ≤ err →
     fakefs_stat path buf follow_links w1 = Ok ((0, project i st hb), with_host w1 h2)).
Proof.
  intros Hi [Hp Hs]%overlay_Some Hi0 Hhost f w1. split_and!.
  - by apply fakefs_open_existing.
  - done.
  - intros buf err hb h2 Hf He. rewrite fakefs_fstat_eq by done. simpl.
    rewrite Hf, Hs. destruct (err <? 0) eqn:E; [lia|done].
  - intros buf follow err hb h2 Hst He.
    apply fakefs_stat_reports with (err := err); try done.
    by apply overlay_Some.
Qed.

(** ** Reading links *)

(** X13. [readlink] of a path without a record is not found, and of a
    path whose recorded mode is not a symbolic link an invalid argument;
    in both cases the host is not asked and nothing changes. *)
Theorem fakefs_readlink_refuses `{host_ops H} (path : string) (bufsize : Z)
    (w : world H) :
  idle w →
  (overlay (tab (db w)) path = None →
     ∃ buf, fakefs_readlink path bufsize w = Ok ((_ENOENT, buf), w)) ∧
  (∀ i st, overlay (tab (db w)) path = Some (i, st) →
     S_ISLNK (ishstat.mode st) = false →
     ∃ buf, fakefs_readlink path bufsize w = Ok ((_EINVAL, buf), w)).
Proof.
  intros Hi. split.
  - intros Hov. unfold fakefs_readlink, path_read_stat. unfold_monad.
    rewrite Hi. simpl. rewrite Hov. simpl. rewrite world_eta by done. eauto.
  - intros i st Hov Hl. unfold fakefs_readlink, path_read_stat. unfold_monad.
    rewrite Hi. simpl. rewrite Hov. simpl. rewrite Hl. simpl.
    rewrite world_eta by done. eauto.
Qed.

(** X14. For a path recorded as a symbolic link, whatever the host's
    [readlink] returns other than an invalid argument (the length and
    bytes of a host symbolic link, or an error) is the result of
    [readlink], and the host file is not opened. *)
Theorem fakefs_readlink_passes_host_result `{host_ops H} (path : string)
    (bufsize i : Z) (st : ish_stat) (w : world H) (err : Z) (buf : string) (h' : H) :
  idle w → overlay (tab (db w)) path = Some (i, st) →
  S_ISLNK (ishstat.mode st) = true →
  realfs_readlink path bufsize (host w) = ((err, buf), h') → err ≠ _EINVAL →
  fakefs_readlink path bufsize w = Ok ((err, buf), with_host w h').
Proof.
  intros Hi Hov Hl Hhost Herr. unfold fakefs_readlink, path_read_stat. unfold_monad.
  rewrite Hi. simpl. rewrite Hov. simpl. rewrite Hl. simpl. rewrite Hhost. simpl.
  assert ((err =? _EINVAL) = false) as -> by lia. simpl.
  by rewrite database_eta.
Qed.

(** ** Attributes, once more *)

(** X15. [setattr] of the uid or the gid of a path rewrites that one field
    of the Stat record of the path and nothing else: mode, rdev and the
    other owner field stay, the Stat records of other inodes stay, no Path
    record changes, and the host is not called. *)
Theorem fakefs_setattr_owner `{host_ops H} (path : string) (i v : Z) (st : ish_stat)
    (w : world H) :
  idle w → overlay (tab (db w)) path = Some (i, st) →
  let kept (w' : world H) :=
    host w' = host w ∧ paths (tab (db w')) = paths (tab (db w)) ∧
    ∀ j, j ≠ i → stats (tab (db w')) !! j = stats (tab (db w)) !! j in
  (∃ w', fakefs_setattr path (attr_uid v) w = Ok (0, w') ∧ kept w' ∧
         overlay (tab (db w')) path
         = Some (i, ishstat.mk (ishstat.mode st) v (ishstat.gid st) (ishstat.rdev st))) ∧
  (∃ w', fakefs_setattr path (attr_gid v) w = Ok (0, w') ∧ kept w' ∧
         overlay (tab (db w')) path
         = Some (i, ishstat.mk (ishstat.mode st) (ishstat.uid st) v (ishstat.rdev st))).
Proof.
  intros Hi Hov kept.
  assert (∀ a, is_size a = false →
    ∃ w', fakefs_setattr path a w = Ok (0, w') ∧ kept w' ∧
          overlay (tab (db w')) path = Some (i, fake_stat_setattr st a)) as Hany.
  { intros a Ha. rewrite fakefs_setattr_eq by done. rewrite Hov.
    eexists. split; [done|]. apply overlay_Some in Hov as [Hp Hs]. split.
    - unfold kept. simpl. split_and!; [done..|]. intros j Hj.
      by rewrite lookup_insert_ne.
    - apply overlay_Some. simpl. split; [done|]. apply lookup_insert_eq. }
  split; [apply (Hany (attr_uid v))|apply (Hany (attr_gid v))]; done.
Qed.

(** X16. With an attribute other than the size, [setattr] of a path
    without a record is not found and changes nothing, while [fsetattr]
    on a descriptor whose inode number has no Stat record aborts the
    process. *)
Theorem fakefs_setattr_missing `{host_ops H} (a : attr) (w : world H) :
  idle w → is_size a = false →
  (∀ path, overlay (tab (db w)) path = None →
     fakefs_setattr path a w = Ok (_ENOENT, w)) ∧
  (∀ f, stats (tab (db w)) !! fake_inode f = None →
     ∃ msg, fakefs_fsetattr f a w = Died msg).
Proof.
  intros Hi Ha. split.
  - intros path Hov. rewrite fakefs_setattr_eq by done. by rewrite Hov.
  - intros f Hs. destruct a; try done;
      unfold fakefs_fsetattr, inode_read_stat; unfold_monad;
      rewrite Hi; simpl; rewrite Hs; simpl; eauto.
Qed.

(** ** Linking *)

(** X17. Once the host has linked, [link] binds [dst] to the inode of
    [src] when [src] has a record with a non-zero inode number and [dst]
    has none: it returns success, the relations have the one new row and
    the transaction is closed; in every other case the process is aborted,
    the host link staying in place. *)
Theorem fakefs_link_after_host_link `{host_ops H} (src dst : string) (w : world H)
    (err : Z) (h' : H) :
  idle w → realfs_link src dst (host w) = (err, h') → 0 ≤ err →
  (∀ i, paths (tab (db w)) !! src = Some i → i ≠ 0 →
     paths (tab (db w)) !! dst = None →
     ∃ w', fakefs_link src dst w = Ok (0, w') ∧ host w' = h' ∧ idle w' ∧
           tab (db w') = mk_tables (<[dst := i]> (paths (tab (db w))))
                           (stats (tab (db w))) (seq (tab (db w)))) ∧
  (default 0 (paths (tab (db w)) !! src) = 0 ∨ is_Some (paths (tab (db w)) !! dst) →
     ∃ msg, fakefs_link src dst w = Died msg).
Proof.
  intros Hi Hhost Herr.
  assert ((err <? 0) = false) as He by lia. split.
  - intros i Hs Hi0 Hd. unfold fakefs_link, path_link, path_get_inode. unfold_monad.
    rewrite Hi. simpl. rewrite Hhost. simpl. rewrite He. simpl. rewrite Hs. simpl.
    assert ((i =? 0) = false) as -> by lia. simpl. rewrite Hd. simpl.
    eexists. split; [done|]. done.
  - intros Hbad. unfold fakefs_link, path_link, path_get_inode. unfold_monad.
    rewrite Hi. simpl. rewrite Hhost. simpl. rewrite He. simpl.
    destruct (default 0 (paths (tab (db w)) !! src) =? 0) eqn:E; simpl; [eauto|].
    destruct Hbad as [Hz|[j Hj]]; [lia|]. rewrite Hj. simpl. eauto.
Qed.

(** ** Creating directories and symbolic links *)

Section more_creation.
Context {H : Type} `{!host_ops H}.

Lemma fakefs_mkdir_inv (path : string) (mode : Z) (w w' : world H) :
  fakefs_mkdir path mode w = Ok (0, w') →
  ∃ err, realfs_mkdir path perm_0777 (host w) = (err, host w') ∧ 0 ≤ err ∧
    (∃ i, overlay (tab (db w')) path
          = Some (i, ishstat.mk (Z.lor mode S_IFDIR)
                       (euid (current w)) (egid (current w)) 0)) ∧
    idle w'.
Proof.
  intros Hrun. unfold fakefs_mkdir in Hrun.
  apply (wrapped_create_inv _ path
           (λ cur, ishstat.mk (Z.lor mode S_IFDIR) (euid cur) (egid cur) 0)
           (λ _, 0)) in Hrun
    as (err & Hop & Herr & _ & _ & _ & Hov & Hi' & _); [|done..].
  eauto.
Qed.

End more_creation.

(** X18. A [mkdir] that succeeds has made the host directory with mode
    [0777], whatever mode was asked for, and recorded [mode | S_IFDIR]
    with rdev zero; a later [stat] reports the recorded mode. *)
Theorem fakefs_mkdir_records `{host_ops H} (path : string) (mode : Z) (w w' : world H) :
  fakefs_mkdir path mode w = Ok (0, w') →
  (∃ err, realfs_mkdir path perm_0777 (host w) = (err, host w') ∧ 0 ≤ err) ∧
  (∃ i, overlay (tab (db w')) path
        = Some (i, ishstat.mk (Z.lor mode S_IFDIR)
                     (euid (current w)) (egid (current w)) 0)) ∧
  (∀ buf follow_links err hb h',
     realfs_stat path buf follow_links (host w') = ((err, hb), h') → 0 ≤ err →
     ∃ out, fakefs_stat path buf follow_links w' = Ok ((0, out), with_host w' h') ∧
            statbuf.mode out = Z.lor mode S_IFDIR ∧ statbuf.rdev out = 0).
Proof.
  intros (err & Hhost & Herr & [i Hov] & Hi')%fakefs_mkdir_inv. split_and!; eauto.
  intros buf follow e hb h' Hst He. eexists. split.
  - by apply fakefs_stat_reports with (err := e).
  - done.
Qed.

(** X19. A [symlink] that succeeds records the mode [S_IFLNK | 0777] and
    rdev zero, whatever the target: the path passes the symbolic-link test
    of [readlink] and [stat] reports full permissions. *)
Theorem fakefs_symlink_records `{host_ops H} (target link : string) (w w' : world H) :
  (∀ e, errno_table e < 0) →
  fakefs_symlink target link w = Ok (0, w') →
  ∃ i st, overlay (tab (db w')) link = Some (i, st) ∧
    ishstat.mode st = Z.lor S_IFLNK perm_0777 ∧ ishstat.rdev st = 0 ∧
    S_ISLNK (ishstat.mode st) = true ∧
    ∀ buf follow_links err hb h',
      realfs_stat link buf follow_links (host w') = ((err, hb), h') → 0 ≤ err →
      ∃ out, fakefs_stat link buf follow_links w' = Ok ((0, out), with_host w' h') ∧
             statbuf.mode out = Z.lor S_IFLNK perm_0777.
Proof.
  intros Hneg Hrun.
  apply fakefs_symlink_inv in Hrun
    as (_ & _ & _ & _ & _ & _ & _ & _ & _ & _ & _ & [i Hov] & Hi' & _); [|done..].
  eexists _, _. split_and!; [done..|].
  intros buf follow e hb h' Hst He. eexists. split.
  - by apply fakefs_stat_reports with (err := e).
  - done.
Qed.

(** X20. When the write of the target fails, [symlink] removes the host
    file it has just created: the host is left in the state after the
    [unlinkat] of the link path, and the store is as before. *)
Theorem fakefs_symlink_write_failure `{host_ops H} (target link : string)
    (w : world H) (fd e : Z) (h1 h2 h3 h4 : H) (c : sysres unit) (u : sysres unit) :
  idle w →
  sys_openat (fix_path link) (Z.lor (Z.lor O_WRONLY O_CREAT) O_EXCL) perm_0666 (host w)
    = (SysOk fd, h1) → 0 ≤ fd →
  sys_write fd target h1 = (SysErr e, h2) →
  sys_close fd h2 = (c, h3) →
  sys_unlinkat (fix_path link) h3 = (u, h4) →
  ∃ r w', fakefs_symlink target link w = Ok (r, w') ∧ host w' = h4 ∧ db w' = db w ∧
          (c = SysOk tt → r = errno_table e).
Proof.
  intros Hi Hopen Hfd Hwrite Hclose Hunlink. unfold fakefs_symlink. unfold_monad.
  rewrite Hi. simpl. rewrite Hopen. simpl.
  assert ((fd <? 0) = false) as -> by lia. simpl. rewrite Hwrite. simpl.
  rewrite Hclose. destruct c as [[]|e']; simpl; rewrite Hunlink;
    destruct u as [[]|e'']; simpl; eexists _, _;
    (split_and!; [done|done|by apply database_eta|]); try done.
Qed.

(** ** Mounting *)

Lemma sweep_lookup (t : tables) (i : Z) (st : ish_stat) :
  stats (delete_orphaned_stats t) !! i = Some st ↔
  stats t !! i = Some st ∧ ∃ path, paths t !! path = Some i.
Proof.
  unfold delete_orphaned_stats. simpl. rewrite map_lookup_filter_Some. simpl.
  rewrite map_Exists_lookup. split.
  - intros [Hs (path & j & Hp & ->)]. eauto.
  - intros [Hs [path Hp]]. eauto.
Qed.

(** X21. The orphan sweep of [fakefs_mount] deletes exactly the Stat
    records that no Path record references: what every path sees is as
    before, a Stat record survives if and only if some path has its inode
    number, and a consistent store stays consistent. *)
Theorem orphan_sweep_keeps_referenced (t : tables) :
  paths (delete_orphaned_stats t) = paths t ∧
  (∀ path, overlay (delete_orphaned_stats t) path = overlay t path) ∧
  (∀ i, is_Some (stats (delete_orphaned_stats t) !! i) ↔
        is_Some (stats t !! i) ∧ ∃ path, paths t !! path = Some i) ∧
  (store_ok t → store_ok (delete_orphaned_stats t)).
Proof.
  split_and!.
  - done.
  - intros path. unfold overlay at 1 2. simpl.
    destruct (paths t !! path) as [i|] eqn:Hp; simpl; [|done].
    destruct (stats t !! i) as [st|] eqn:Hs; simpl.
    + assert (stats (delete_orphaned_stats t) !! i = Some st) as Hk
        by (apply sweep_lookup; eauto).
      simpl in Hk. by rewrite Hk.
    + destruct (stats (delete_orphaned_stats t) !! i) as [st|] eqn:Hk; [|by simpl in *; rewrite Hk].
      apply sweep_lookup in Hk as [Hk _]. congruence.
  - intros i. split.
    + intros [st [Hs Hp]%sweep_lookup]. eauto.
    + intros [[st Hs] Hp]. exists st. by apply sweep_lookup.
  - rewrite !store_ok_lookup. intros Hok path i Hp. simpl in Hp.
    destruct (Hok path i Hp) as [Hi [st Hs]]. split; [done|].
    exists st. apply sweep_lookup. eauto.
Qed.

(** X22. The Stat record of an unlinked path is collected by the next
    sweep exactly when no other name is left for it: after an [unlink] that
    succeeds, the sweep removes the record if no other path has its inode
    number and keeps it as it is if one has. *)
Theorem unlink_then_sweep `{host_ops H} (path : string) (i : Z) (w w' : world H) :
  fakefs_unlink path w = Ok (0, w') →
  paths (tab (db w)) !! path = Some i →
  let swept := delete_orphaned_stats (tab (db w')) in
  ((∀ q, q ≠ path → paths (tab (db w)) !! q ≠ Some i) → stats swept !! i = None) ∧
  (∀ q, q ≠ path → paths (tab (db w)) !! q = Some i →
     stats swept !! i = stats (tab (db w)) !! i).
Proof.
  intros (e & _ & _ & _ & _ & Htab & _)%fakefs_unlink_inv Hp swept; [|done].
  subst swept. split.
  - intros Hnone.
    destruct (stats (delete_orphaned_stats (tab (db w'))) !! i) as [st|] eqn:Hs; [|done].
    apply sweep_lookup in Hs as [_ [q Hq]]. rewrite Htab in Hq. simpl in Hq.
    apply lookup_delete_Some in Hq as [Hne Hq]. by destruct (Hnone q).
  - intros q Hq Hqi. destruct (stats (tab (db w)) !! i) as [st|] eqn:Hs.
    + apply sweep_lookup. rewrite Htab. simpl. split; [done|].
      exists q. by rewrite lookup_delete_ne.
    + destruct (stats (delete_orphaned_stats (tab (db w'))) !! i) as [st|] eqn:Hk;
        [|done].
      apply sweep_lookup in Hk as [Hk _]. rewrite Htab in Hk. simpl in Hk. congruence.
Qed.

Lemma last_slash_app_base (dir base : string) :
  last_slash base = None →
  last_slash (dir +:+ "/" +:+ base) = Some (dir +:+ "/", base).
Proof.
  intros Hb. induction dir as [|c dir IH].
  - change (last_slash (String "/" base) = Some ("/", base)). simpl. by rewrite Hb.
  - change (last_slash (String c (dir +:+ "/" +:+ base))
            = Some (String c (dir +:+ "/"), base)).
    simpl. by rewrite IH.
Qed.

Lemma length_append (a b : string) :
  String.length (a +:+ b) = (String.length a + String.length b)%nat.
Proof.
  induction a as [|x a IH]; [done|].
  change (S (String.length (a +:+ b)) = S (String.length a + String.length b)).
  by rewrite IH.
Qed.

Lemma append_assoc (a b c : string) : ((a +:+ b) +:+ c = a +:+ (b +:+ c))%string.
Proof.
  induction a as [|x a IH]; [done|].
  change (String x ((a +:+ b) +:+ c) = String x (a +:+ b +:+ c)). by rewrite IH.
Qed.

(** X23. [fakefs_mount] derives the metadata file from the mount source by
    its last component: a source [dir/data] that leaves room for the three
    bytes by which the name grows gives [dir/meta.db], and a source whose
    last component is anything else fails the assertion. *)
Theorem mount_db_path_of_source (PATH_MAX : nat) (dir base : string) :
  last_slash base = None →
  (String.length (dir +:+ "/" +:+ base) + 3 < PATH_MAX)%nat →
  mount_db_path PATH_MAX (dir +:+ "/" +:+ base)
  = if String.eqb base "data" then Some (Ok (dir +:+ "/meta.db"))
    else Some (Died "assertion failed: strcmp(basename, data) == 0").
Proof.
  intros Hb Hlen. unfold mount_db_path.
  destruct (Nat.leb_spec PATH_MAX (String.length (dir +:+ "/" +:+ base))); [lia|].
  rewrite last_slash_app_base by done.
  destruct (String.eqb_spec base "data") as [->|]; [|done].
  rewrite append_assoc.
  destruct (Nat.leb_spec PATH_MAX (String.length (dir +:+ "/" +:+ "meta.db")));
    [|done].
  rewrite !length_append in *. simpl in *. lia.
Qed.

(** ** The further theorems at concrete inputs *)

Lemma store_ok_world_ab : store_ok (tab (db world_ab)).
Proof. unfold store_ok. refine (bool_decide_unpack _ _). vm_compute. reflexivity. Qed.

Lemma verbs_keep_store_ok_witness :
  store_ok (tab (db world_ab)) ∧
  store_ok (tab (db (state_after (fakefs_rename "/a" "/c") world_ab))).
Proof.
  split; [exact store_ok_world_ab|].
  apply (verbs_keep_store_ok (c_rename "/a" "/c") world_ab).
  - exists 0. vm_compute. reflexivity.
  - exact store_ok_world_ab.
Defined.

Lemma verbs_end_their_transaction_witness :
  idle world_a ∧ idle (state_after (fakefs_symlink "/etc/passwd" "/a") world_a).
Proof.
  split; [reflexivity|].
  refine (proj1 (proj2 (verbs_end_their_transaction (c_symlink "/etc/passwd" "/a")
                          world_a _ _)) eq_refl).
  exists (- EEXIST). vm_compute. reflexivity.
Defined.

Lemma verbs_never_delete_stats_witness :
  is_Some (stats (tab (db (state_after (fakefs_unlink "/a") world_a))) !! 1).
Proof.
  refine (proj2 (verbs_never_delete_stats (c_unlink "/a") world_a _ _) 1 _).
  - exists 0. vm_compute. reflexivity.
  - eexists. vm_compute. reflexivity.
Defined.

Lemma read_verbs_leave_store_witness :
  db (state_after (fakefs_readlink "/s" 64) world_s) = db world_s.
Proof.
  apply (read_verbs_leave_store (c_readlink "/s" 64) world_s); [exact I|].
  eexists. vm_compute. reflexivity.
Defined.

Lemma adding_verbs_keep_other_records_witness :
  overlay (tab (db (state_after (fakefs_mkdir "/d" 0x1ED) world_a))) "/a"
  = Some (1, ishstat.mk (Z.lor S_IFREG 0x180) 1000 100 0).
Proof.
  apply (adding_verbs_keep_other_records (c_mkdir "/d" 0x1ED) world_a); [exact I| |].
  - exists 0. vm_compute. reflexivity.
  - vm_compute. reflexivity.
Defined.

Lemma fakefs_rename_moves_record_witness :
  let w' := state_after (fakefs_rename "/a" "/b") world_a_b in
  paths (tab (db world_a_b)) !! "/b" = Some 2 ∧
  paths (tab (db w')) !! "/b" = Some 1 ∧ paths (tab (db w')) !! "/a" = None.
Proof.
  intros w'. split; [vm_compute; reflexivity|].
  destruct (fakefs_rename_moves_record "/a" "/b" 1 world_a_b w') as (Hd & Hs & _).
  - vm_compute. reflexivity.
  - vm_compute. reflexivity.
  - split; [exact Hd|]. apply Hs. discriminate.
Defined.

Lemma fakefs_rename_without_record_witness :
  let h' := (realfs_rename "/a" "/z" (host world_norecord)).2 in
  host_lookup (host world_norecord) (fix_path "/z") = None ∧
  is_Some (host_lookup h' (fix_path "/z")) ∧
  fakefs_rename "/a" "/z" world_norecord = Ok (0, with_host world_norecord h').
Proof.
  intros h'. split; [reflexivity|]. split; [by eexists|].
  apply (@fakefs_rename_without_record RefHost.t ref_host_ops "/a" "/z"
           world_norecord 0 h');
    [reflexivity | vm_compute; reflexivity | lia | vm_compute; reflexivity].
Defined.

Lemma fakefs_rmdir_removes_path_only_witness :
  let w' := state_after (fakefs_rmdir "/d") world_d in
  fakefs_stat "/d" statbuf0 true w' = Ok ((_ENOENT, statbuf0), w') ∧
  stats (tab (db w')) = stats (tab (db world_d)).
Proof.
  intros w'.
  destruct (fakefs_rmdir_removes_path_only "/d" world_d w') as (Hgone & Hstats & _).
  - vm_compute. reflexivity.
  - split; [apply Hgone | exact Hstats].
Defined.

Lemma fakefs_fstat_projects_witness :
  ∃ out, fakefs_fstat (mk_fd 3 1) statbuf0 world_a = Ok ((0, out), world_a) ∧
         statbuf.inode out = 1 ∧ statbuf.mode out = Z.lor S_IFREG 0x180.
Proof.
  destruct (@fakefs_fstat_projects RefHost.t ref_host_ops (mk_fd 3 1) statbuf0 world_a 0
              (RefHost.host_stat (RefHost.Reg "") statbuf0) (host world_a)
              eq_refl ltac:(vm_compute; reflexivity)) as (_ & Hok & _).
  eexists. split.
  - apply (Hok ltac:(lia) (ishstat.mk (Z.lor S_IFREG 0x180) 1000 100 0)).
    vm_compute. reflexivity.
  - split; reflexivity.
Defined.

Lemma fakefs_fstat_after_unlink_witness :
  let w' := state_after (fakefs_unlink "/b") world_ab in
  ∃ out, fakefs_fstat (mk_fd 3 1) statbuf0 w' = Ok ((0, out), w') ∧
         statbuf.mode out = Z.lor S_IFREG 0x180.
Proof.
  intros w'. eexists. split.
  - apply (@fakefs_fstat_after_unlink RefHost.t ref_host_ops "/b" (mk_fd 3 1)
             (ishstat.mk (Z.lor S_IFREG 0x180) 1000 100 0) statbuf0 world_ab w' 0
             (RefHost.host_stat (RefHost.Reg "") statbuf0) (host w'));
      [vm_compute; reflexivity..|lia].
  - reflexivity.
Defined.

Lemma fakefs_open_without_record_witness :
  ∃ w', fakefs_open "/a" O_RDONLY 0 world_norecord = Ok (inl _ENOENT, w') ∧
        db w' = db world_norecord.
Proof.
  destruct (fakefs_open_without_record "/a" O_RDONLY 0 world_norecord) as [_ Hno].
  eexists. split.
  - apply (Hno eq_refl eq_refl ltac:(vm_compute; reflexivity) (mk_fd 4 0)
             (RefHost.realfs_open "/a" O_RDONLY perm_0666 (host world_norecord)).2 0
             (RefHost.fd_close (mk_fd 4 0)
                (RefHost.realfs_open "/a" O_RDONLY perm_0666 (host world_norecord)).2).2);
      vm_compute; reflexivity.
  - reflexivity.
Defined.

Lemma fakefs_open_then_fstat_witness :
  ∃ w1, fakefs_open "/a" O_RDONLY 0 world_a = Ok (inr (mk_fd 4 1), w1) ∧
        db w1 = db world_a.
Proof.
  destruct (@fakefs_open_then_fstat RefHost.t ref_host_ops "/a" O_RDONLY 0 1
              (ishstat.mk (Z.lor S_IFREG 0x180) 1000 100 0) world_a (mk_fd 4 0)
              (RefHost.realfs_open "/a" O_RDONLY perm_0666 (host world_a)).2)
    as (Hopen & Hdb & _);
    [reflexivity | vm_compute; reflexivity | discriminate | vm_compute; reflexivity |].
  eexists. split; [exact Hopen | exact Hdb].
Defined.

Lemma fakefs_readlink_refuses_witness :
  (∃ buf, fakefs_readlink "/nowhere" 64 world_a = Ok ((_ENOENT, buf), world_a)) ∧
  (∃ buf, fakefs_readlink "/a" 64 world_a = Ok ((_EINVAL, buf), world_a)).
Proof.
  destruct (fakefs_readlink_refuses "/nowhere" 64 world_a eq_refl) as [Hnone _].
  destruct (fakefs_readlink_refuses "/a" 64 world_a eq_refl) as [_ Hreg].
  split.
  - apply Hnone. vm_compute. reflexivity.
  - apply (Hreg 1 (ishstat.mk (Z.lor S_IFREG 0x180) 1000 100 0));
      vm_compute; reflexivity.
Defined.

Lemma fakefs_readlink_passes_host_result_witness :
  fakefs_readlink "/s" 64 world_hostlink = Ok ((10, "/etc/hosts"), world_hostlink).
Proof.
  apply (@fakefs_readlink_passes_host_result RefHost.t ref_host_ops "/s" 64 1
           (ishstat.mk (Z.lor S_IFLNK perm_0777) 0 0 0) world_hostlink 10 "/etc/hosts"
           (host world_hostlink));
    [reflexivity | vm_compute; reflexivity | reflexivity | vm_compute; reflexivity
    | discriminate].
Defined.

Lemma fakefs_setattr_owner_witness :
  ∃ w', fakefs_setattr "/a" (attr_gid 0) world_a = Ok (0, w') ∧
        overlay (tab (db w')) "/a"
        = Some (1, ishstat.mk (Z.lor S_IFREG 0x180) 1000 0 0).
Proof.
  destruct (@fakefs_setattr_owner RefHost.t ref_host_ops "/a" 1 0
              (ishstat.mk (Z.lor S_IFREG 0x180) 1000 100 0) world_a eq_refl
              ltac:(vm_compute; reflexivity)) as [_ (w' & Hrun & _ & Hov)].
  exists w'. split; [exact Hrun | exact Hov].
Defined.

Lemma fakefs_setattr_missing_witness :
  fakefs_setattr "/nowhere" (attr_uid 0) world_a = Ok (_ENOENT, world_a) ∧
  ∃ msg, fakefs_fsetattr (mk_fd 3 7) (attr_uid 0) world_a = Died msg.
Proof.
  destruct (@fakefs_setattr_missing RefHost.t ref_host_ops (attr_uid 0) world_a eq_refl eq_refl) as [Hp Hf].
  split.
  - apply Hp. vm_compute. reflexivity.
  - apply (Hf (mk_fd 3 7)). vm_compute. reflexivity.
Defined.

Lemma fakefs_link_after_host_link_witness :
  (∃ w', fakefs_link "/a" "/b" world_a = Ok (0, w') ∧
         paths (tab (db w')) !! "/b" = Some 1) ∧
  (∃ msg, fakefs_link "/a" "/b" world_norecord = Died msg).
Proof.
  split.
  - destruct (@fakefs_link_after_host_link RefHost.t ref_host_ops "/a" "/b" world_a 0
                (RefHost.realfs_link "/a" "/b" (host world_a)).2 eq_refl
                ltac:(vm_compute; reflexivity) ltac:(lia)) as [Hok _].
    destruct (Hok 1 ltac:(vm_compute; reflexivity) ltac:(discriminate)
                ltac:(vm_compute; reflexivity)) as (w' & Hrun & _ & _ & Htab).
    exists w'. split; [exact Hrun|]. rewrite Htab. apply lookup_insert_eq.
  - destruct (@fakefs_link_after_host_link RefHost.t ref_host_ops "/a" "/b"
                world_norecord 0
                (RefHost.realfs_link "/a" "/b" (host world_norecord)).2 eq_refl
                ltac:(vm_compute; reflexivity) ltac:(lia)) as [_ Hdie].
    apply Hdie. left. vm_compute. reflexivity.
Defined.

Lemma fakefs_mkdir_records_witness :
  ∃ i, overlay (tab (db world_d)) "/d"
       = Some (i, ishstat.mk (Z.lor 0x1ED S_IFDIR) 1000 100 0).
Proof.
  destruct (@fakefs_mkdir_records RefHost.t ref_host_ops "/d" 0x1ED world0 world_d
              ltac:(vm_compute; reflexivity)) as (_ & Hov & _).
  exact Hov.
Defined.

Lemma fakefs_symlink_records_witness :
  ∃ i st, overlay (tab (db world_s)) "/s" = Some (i, st) ∧
          ishstat.mode st = Z.lor S_IFLNK perm_0777.
Proof.
  destruct (@fakefs_symlink_records RefHost.t ref_host_ops "/nonexistent/target" "/s"
              world0 world_s ref_errno_table_negative ltac:(vm_compute; reflexivity))
    as (i & st & Hov & Hmode & _).
  exists i, st. split; [exact Hov | exact Hmode].
Defined.

Lemma fakefs_symlink_write_failure_witness :
  ∃ r w', @fakefs_symlink RefHost.t full_host_ops "/etc/passwd" "/s" world0 = Ok (r, w') ∧
          RefHost.entries (host w') = ∅ ∧ db w' = db world0 ∧ r = - ENOSPC.
Proof.
  destruct (@fakefs_symlink_write_failure RefHost.t full_host_ops "/etc/passwd" "/s"
              world0 3 ENOSPC
              (RefHost.openat "s" 0xC1 perm_0666 (host world0)).2
              (RefHost.openat "s" 0xC1 perm_0666 (host world0)).2
              (RefHost.mk {["s" := RefHost.Reg ""]} ∅ 4%N false)
              (RefHost.mk ∅ ∅ 4%N false) (SysOk tt) (SysOk tt))
    as (r & w' & Hrun & Hhost & Hdb & Hr);
    [reflexivity | vm_compute; reflexivity | lia | reflexivity
    | vm_compute; reflexivity | vm_compute; reflexivity |].
  exists r, w'. split; [exact Hrun|]. split; [|split; [exact Hdb|by apply Hr]].
  rewrite Hhost. reflexivity.
Defined.

Lemma orphan_sweep_keeps_referenced_witness :
  store_ok (tab (db world_ab)) ∧ store_ok (delete_orphaned_stats (tab (db world_ab))).
Proof.
  split; [exact store_ok_world_ab|].
  exact (proj2 (proj2 (proj2 (orphan_sweep_keeps_referenced (tab (db world_ab)))))
           store_ok_world_ab).
Defined.

Lemma paths_world_a (q : string) :
  q ≠ "/a" → paths (tab (db world_a)) !! q ≠ Some 1.
Proof.
  intros Hq. change (paths (tab (db world_a))) with (<["/a" := 1]> (∅ : gmap string Z)).
  rewrite lookup_insert_ne by done. by rewrite lookup_empty.
Qed.

Lemma unlink_then_sweep_witness :
  stats (tab (db world_a)) !! 1
  = Some (ishstat.mk (Z.lor S_IFREG 0x180) 1000 100 0) ∧
  stats (delete_orphaned_stats (tab (db (state_after (fakefs_unlink "/a") world_a)))) !! 1
  = None.
Proof.
  split; [vm_compute; reflexivity|].
  refine (proj1 (unlink_then_sweep "/a" 1 world_a _ _ _) paths_world_a);
    vm_compute; reflexivity.
Defined.

Lemma mount_db_path_of_source_witness :
  mount_db_path 1024 "/var/mobile/roots/alpine/data"
  = Some (Ok "/var/mobile/roots/alpine/meta.db").
Proof.
  apply (mount_db_path_of_source 1024 "/var/mobile/roots/alpine" "data").
  - reflexivity.
  - vm_compute. lia.
Defined.
